(** * GoBase: query builder, field registry, generic repository, result envelope

    A shallow embedding of the Go packages [query], [query_builder] (the
    earlier, SELECT-only builder), [utils], [repository] and [result], and
    the properties of the specification checked against them.

    Conventions.
    - A Go [string] is a [string] (a sequence of bytes); [+:+] is Go's [+].
    - A Go [int] is a [Z]; the code only stores and compares ints (no
      arithmetic on them), so no wrap-around arises.
    - A Go [interface{}] value is an [any] (see [reflect]).
    - A slice is the list of its elements. The code only appends to its
      slices and never writes a returned slice below its length, so the
      sharing of backing arrays does not show in the values returned.
    - A panic is [None] in an [option] result.
    - A method with a pointer receiver that mutates its receiver takes the
      receiver's state and returns the new one. *)

From Stdlib Require Import String Ascii ZArith List Bool Lia.
From stdpp Require Import base option list gmap strings.

Local Open Scope string_scope.
Local Open Scope list_scope.
Local Open Scope Z_scope.

(** ** Package [strings] of the Go standard library (the parts used) *)

Module strings.

(** [strings.Join(elems, sep)]: the empty string for no element, the
    element itself for one, otherwise the elements separated by [sep]. *)
Fixpoint Join (elems : list string) (sep : string) : string :=
  match elems with
  | [] => ""
  | [e] => e
  | e :: rest => e +:+ sep +:+ Join rest sep
  end.

(** One byte of [strings.ToLower] on its ASCII path: 'A'..'Z' are moved
    to 'a'..'z' and every other byte is kept. *)
Definition lowerByte (c : ascii) : ascii :=
  let n := nat_of_ascii c in
  if (Nat.leb 65 n && Nat.leb n 90)%bool then ascii_of_nat (n + 32) else c.

(** [strings.ToLower(s)] for a string of ASCII bytes, which the names of
    Go types written in ASCII are. (On other strings Go maps each rune
    with [unicode.ToLower]; that table is not modelled.) The properties
    below evaluate it on ASCII names only; where the type name is
    arbitrary they keep the table name as [ToLower typeName]. *)
Fixpoint ToLower (s : string) : string :=
  match s with
  | EmptyString => EmptyString
  | String c rest => String (lowerByte c) (ToLower rest)
  end.

End strings.

(** ** Package [reflect] of the Go standard library (the parts used) *)

Module reflect.

(** [reflect.StructField]: the field's name, the package path that
    qualifies an unexported field ([PkgPath] is empty exactly for an
    exported field), and its tag. A tag in the conventional format
    [key:"value" key:"value"] is kept as its key/value pairs in order. *)
Record StructField : Type := {
  Name : string;
  PkgPath : string;
  Tag : list (string * string)
}.

(** A value held in an [interface{}]: the nil interface, values of some
    basic kinds, a pointer, or a struct value. A struct value carries its
    type's bare name and its fields in declaration order, each with the
    value it holds. *)
#[warnings="-register-all"]
Inductive any : Type :=
| Nil
| Int (n : Z)
| Str (s : string)
| Bool (b : bool)
| Ptr (elem : any)
| Struct (name : string) (fields : list (StructField * any)).

(** [reflect.TypeOf(v).Name()]: the bare name of [v]'s type. [TypeOf]
    of the nil interface is the nil [Type], on which a method call
    panics; a pointer type has no name. *)
Definition TypeName (v : any) : option string :=
  match v with
  | Nil => None
  | Int _ => Some "int"
  | Str _ => Some "string"
  | Bool _ => Some "bool"
  | Ptr _ => Some ""
  | Struct name _ => Some name
  end.

(** The fields [t.Field(0)], ..., [t.Field(t.NumField()-1)] of
    [t := reflect.TypeOf(v)], each with [v.Field(i)]. [NumField] panics
    when the kind of [t] is not [Struct] (and on the nil [Type]). *)
Definition Fields (v : any) : option (list (StructField * any)) :=
  match v with
  | Struct _ fields => Some fields
  | _ => None
  end.

(** [tag.Lookup(key)]: the value of the first pair with that key. *)
Fixpoint Lookup (tag : list (string * string)) (key : string) : option string :=
  match tag with
  | [] => None
  | (k, v) :: rest => if String.eqb k key then Some v else Lookup rest key
  end.

(** [v.Field(i).Interface()]: the field's value as an [interface{}]. It
    panics for a value obtained from an unexported field. *)
Definition Interface (fv : StructField * any) : option any :=
  if String.eqb (PkgPath (fst fv)) "" then Some (snd fv) else None.

(** [v.FieldByName(name)] on a struct whose fields are all declared in
    the struct itself, as the fields of a [Struct] value of this model are:
    the field with that name. (Go also searches the fields promoted from
    embedded structs, which this model does not describe.) On a value of
    another kind the call panics, and for a missing field it gives the zero
    [Value], on which [Interface] panics: both are [None] here, where the
    result is only ever passed to [Interface]. *)
Definition FieldByName (v : any) (name : string) : option (StructField * any) :=
  match Fields v with
  | None => None
  | Some fields => List.find (fun fv => String.eqb (Name (fst fv)) name) fields
  end.

End reflect.

Import reflect.

(** ** Package [query]: the query builder *)

Module query.

(** [strings.Builder]: the text written so far; [WriteString] adds to
    its end and [String()] is the text. *)
Definition WriteString (sb : string) (s : string) : string := sb +:+ s.

(** [QueryBuilder[T]]. [entity.Field[T]] is a string type (the code
    converts with [string(field)] and [entity.Field[T]("ID")]), so a
    field is a [string]. A fresh builder has every slice nil and
    [limit] zero. *)
Record QueryBuilder : Type := {
  selectFields : list string;
  whereClauses : list string;
  whereArgs : list any;
  joins : list string;
  limit : Z;
  orderBy : list string;
  insertFields : list string;
  insertValues : list any;
  updateFields : list string
}.

Definition NewQueryBuilder : QueryBuilder :=
  {| selectFields := []; whereClauses := []; whereArgs := []; joins := [];
     limit := 0; orderBy := []; insertFields := []; insertValues := [];
     updateFields := [] |}.

(** The body of [Insert]'s loop, over the fields still to visit. *)
Fixpoint InsertFields (fields : list (StructField * any)) (qb : QueryBuilder)
  : option QueryBuilder :=
  match fields with
  | [] => Some qb
  | fv :: rest =>
      match Interface fv with
      | None => None
      | Some value =>
          InsertFields rest
            {| selectFields := selectFields qb; whereClauses := whereClauses qb;
               whereArgs := whereArgs qb; joins := joins qb; limit := limit qb;
               orderBy := orderBy qb;
               insertFields := insertFields qb ++ [Name (fst fv)];
               insertValues := insertValues qb ++ [value];
               updateFields := updateFields qb |}
      end
  end.

Definition Insert (data : any) (qb : QueryBuilder) : option QueryBuilder :=
  match Fields data with
  | None => None
  | Some fields => InsertFields fields qb
  end.

(** The body of [Update]'s loop, over the fields still to visit. *)
Fixpoint UpdateFields (fields : list (StructField * any)) (qb : QueryBuilder)
  : option QueryBuilder :=
  match fields with
  | [] => Some qb
  | fv :: rest =>
      match Interface fv with
      | None => None
      | Some value =>
          UpdateFields rest
            {| selectFields := selectFields qb; whereClauses := whereClauses qb;
               whereArgs := whereArgs qb ++ [value];
               joins := joins qb; limit := limit qb; orderBy := orderBy qb;
               insertFields := insertFields qb; insertValues := insertValues qb;
               updateFields := updateFields qb ++ [Name (fst fv) +:+ " = ?"] |}
      end
  end.

Definition Update (data : any) (qb : QueryBuilder) : option QueryBuilder :=
  match Fields data with
  | None => None
  | Some fields => UpdateFields fields qb
  end.

Definition Delete (qb : QueryBuilder) : QueryBuilder := qb.

Definition Select (fields : list string) (qb : QueryBuilder) : QueryBuilder :=
  {| selectFields := selectFields qb ++ fields; whereClauses := whereClauses qb;
     whereArgs := whereArgs qb; joins := joins qb; limit := limit qb;
     orderBy := orderBy qb; insertFields := insertFields qb;
     insertValues := insertValues qb; updateFields := updateFields qb |}.

Definition WhereEqual (field : string) (value : any) (qb : QueryBuilder) : QueryBuilder :=
  {| selectFields := selectFields qb;
     whereClauses := whereClauses qb ++ [field +:+ " = ?"];
     whereArgs := whereArgs qb ++ [value];
     joins := joins qb; limit := limit qb; orderBy := orderBy qb;
     insertFields := insertFields qb; insertValues := insertValues qb;
     updateFields := updateFields qb |}.

Definition OrderByASC (field : string) (qb : QueryBuilder) : QueryBuilder :=
  {| selectFields := selectFields qb; whereClauses := whereClauses qb;
     whereArgs := whereArgs qb; joins := joins qb; limit := limit qb;
     orderBy := orderBy qb ++ [field +:+ " ASC"];
     insertFields := insertFields qb; insertValues := insertValues qb;
     updateFields := updateFields qb |}.

Definition OrderByDESC (field : string) (qb : QueryBuilder) : QueryBuilder :=
  {| selectFields := selectFields qb; whereClauses := whereClauses qb;
     whereArgs := whereArgs qb; joins := joins qb; limit := limit qb;
     orderBy := orderBy qb ++ [field +:+ " DESC"];
     insertFields := insertFields qb; insertValues := insertValues qb;
     updateFields := updateFields qb |}.

Definition Join (table onCondition : string) (qb : QueryBuilder) : QueryBuilder :=
  {| selectFields := selectFields qb; whereClauses := whereClauses qb;
     whereArgs := whereArgs qb;
     joins := joins qb ++ ["JOIN " +:+ table +:+ " ON " +:+ onCondition];
     limit := limit qb; orderBy := orderBy qb;
     insertFields := insertFields qb; insertValues := insertValues qb;
     updateFields := updateFields qb |}.

Definition Limit (n : Z) (qb : QueryBuilder) : QueryBuilder :=
  {| selectFields := selectFields qb; whereClauses := whereClauses qb;
     whereArgs := whereArgs qb; joins := joins qb; limit := n;
     orderBy := orderBy qb; insertFields := insertFields qb;
     insertValues := insertValues qb; updateFields := updateFields qb |}.

(** [Build]. [typeName] is [reflect.TypeOf(entityInstance).Name()], the
    bare name of the type [T] the builder is instantiated at. The result
    is the returned pair and the builder after the call: the SELECT
    branch stores the argument list extended by the limit back into
    [qb.whereArgs]. *)
Definition Build (typeName : string) (qb : QueryBuilder)
  : (string * list any) * QueryBuilder :=
  let sqlBuilder := "" in
  let tableName := strings.ToLower typeName in
  let whereClause := " WHERE " in
  if (0 <? length (insertFields qb))%nat then
    let sqlBuilder := WriteString sqlBuilder ("INSERT INTO " +:+ tableName +:+ " (") in
    let sqlBuilder := WriteString sqlBuilder (strings.Join (insertFields qb) ", ") in
    let sqlBuilder := WriteString sqlBuilder ") VALUES (" in
    let placeholders := repeat "?" (length (insertFields qb)) in
    let sqlBuilder := WriteString sqlBuilder (strings.Join placeholders ", ") in
    let sqlBuilder := WriteString sqlBuilder ")" in
    ((sqlBuilder, insertValues qb), qb)
  else if (0 <? length (updateFields qb))%nat then
    let sqlBuilder := WriteString sqlBuilder ("UPDATE " +:+ tableName +:+ " SET ") in
    let sqlBuilder := WriteString sqlBuilder (strings.Join (updateFields qb) ", ") in
    let sqlBuilder :=
      if (0 <? length (whereClauses qb))%nat
      then WriteString sqlBuilder (whereClause +:+ strings.Join (whereClauses qb) " AND ")
      else sqlBuilder in
    ((sqlBuilder, whereArgs qb), qb)
  else if ((0 <? length (whereClauses qb))%nat
           && (length (insertFields qb) =? 0)%nat)%bool then
    let sqlBuilder := WriteString sqlBuilder ("DELETE FROM " +:+ tableName) in
    let sqlBuilder :=
      WriteString sqlBuilder (whereClause +:+ strings.Join (whereClauses qb) " AND ") in
    ((sqlBuilder, whereArgs qb), qb)
  else
    let sqlBuilder := WriteString sqlBuilder "SELECT " in
    let sqlBuilder :=
      if (0 <? length (selectFields qb))%nat
      then WriteString sqlBuilder (strings.Join (selectFields qb) ", ")
      else WriteString sqlBuilder "*" in
    let sqlBuilder := WriteString sqlBuilder (" FROM " +:+ tableName) in
    let sqlBuilder :=
      if (0 <? length (joins qb))%nat
      then WriteString sqlBuilder (" " +:+ strings.Join (joins qb) " ")
      else sqlBuilder in
    let sqlBuilder :=
      if (0 <? length (whereClauses qb))%nat
      then WriteString sqlBuilder (whereClause +:+ strings.Join (whereClauses qb) " AND ")
      else sqlBuilder in
    let sqlBuilder :=
      if (0 <? length (orderBy qb))%nat
      then WriteString sqlBuilder (" ORDER BY " +:+ strings.Join (orderBy qb) ", ")
      else sqlBuilder in
    if 0 <? limit qb then
      let sqlBuilder := WriteString sqlBuilder " LIMIT ?" in
      let whereArgs' := whereArgs qb ++ [Int (limit qb)] in
      ((sqlBuilder, whereArgs'),
       {| selectFields := selectFields qb; whereClauses := whereClauses qb;
          whereArgs := whereArgs'; joins := joins qb; limit := limit qb;
          orderBy := orderBy qb; insertFields := insertFields qb;
          insertValues := insertValues qb; updateFields := updateFields qb |})
    else
      ((sqlBuilder, whereArgs qb), qb).

End query.

(** ** Package [query_builder]: the earlier builder, SELECT statements only *)

Module query_builder.

Definition WriteString (sb : string) (s : string) : string := sb +:+ s.

Record QueryBuilder : Type := {
  selectFields : list string;
  whereClauses : list string;
  whereArgs : list any;
  joins : list string;
  limit : Z;
  orderBy : list string
}.

Definition NewQueryBuilder : QueryBuilder :=
  {| selectFields := []; whereClauses := []; whereArgs := []; joins := [];
     limit := 0; orderBy := [] |}.

Definition Select (fields : list string) (qb : QueryBuilder) : QueryBuilder :=
  {| selectFields := selectFields qb ++ fields; whereClauses := whereClauses qb;
     whereArgs := whereArgs qb; joins := joins qb; limit := limit qb;
     orderBy := orderBy qb |}.

Definition WhereEqual (field : string) (value : any) (qb : QueryBuilder) : QueryBuilder :=
  {| selectFields := selectFields qb;
     whereClauses := whereClauses qb ++ [field +:+ " = ?"];
     whereArgs := whereArgs qb ++ [value];
     joins := joins qb; limit := limit qb; orderBy := orderBy qb |}.

Definition OrderByASC (field : string) (qb : QueryBuilder) : QueryBuilder :=
  {| selectFields := selectFields qb; whereClauses := whereClauses qb;
     whereArgs := whereArgs qb; joins := joins qb; limit := limit qb;
     orderBy := orderBy qb ++ [field +:+ " ASC"] |}.

Definition OrderByDESC (field : string) (qb : QueryBuilder) : QueryBuilder :=
  {| selectFields := selectFields qb; whereClauses := whereClauses qb;
     whereArgs := whereArgs qb; joins := joins qb; limit := limit qb;
     orderBy := orderBy qb ++ [field +:+ " DESC"] |}.

Definition Join (table onCondition : string) (qb : QueryBuilder) : QueryBuilder :=
  {| selectFields := selectFields qb; whereClauses := whereClauses qb;
     whereArgs := whereArgs qb;
     joins := joins qb ++ ["JOIN " +:+ table +:+ " ON " +:+ onCondition];
     limit := limit qb; orderBy := orderBy qb |}.

Definition Limit (n : Z) (qb : QueryBuilder) : QueryBuilder :=
  {| selectFields := selectFields qb; whereClauses := whereClauses qb;
     whereArgs := whereArgs qb; joins := joins qb; limit := n;
     orderBy := orderBy qb |}.

(** [Build]; [typeName] is [reflect.TypeOf(( *T)(nil)).Elem().Name()]. *)
Definition Build (typeName : string) (qb : QueryBuilder)
  : (string * list any) * QueryBuilder :=
  let sql := "" in
  let sql := WriteString sql "SELECT " in
  let sql :=
    if (0 <? length (selectFields qb))%nat
    then WriteString sql (strings.Join (selectFields qb) ", ")
    else WriteString sql "*" in
  let sql := WriteString sql (" FROM " +:+ strings.ToLower typeName) in
  let sql :=
    if (0 <? length (joins qb))%nat
    then WriteString sql (" " +:+ strings.Join (joins qb) " ")
    else sql in
  let sql :=
    if (0 <? length (whereClauses qb))%nat
    then WriteString sql (" WHERE " +:+ strings.Join (whereClauses qb) " AND ")
    else sql in
  let sql :=
    if (0 <? length (orderBy qb))%nat
    then WriteString sql (" ORDER BY " +:+ strings.Join (orderBy qb) ", ")
    else sql in
  if 0 <? limit qb then
    let sql := WriteString sql " LIMIT ?" in
    let whereArgs' := whereArgs qb ++ [Int (limit qb)] in
    ((sql, whereArgs'),
     {| selectFields := selectFields qb; whereClauses := whereClauses qb;
        whereArgs := whereArgs'; joins := joins qb; limit := limit qb;
        orderBy := orderBy qb |})
  else
    ((sql, whereArgs qb), qb).

End query_builder.

(** ** Package [utils]: the field registry *)

Module utils.

(** The state of [modelFieldCache], a [sync.Map] from a type's bare name
    to its field map. [registerModel] is the only writer and stores a
    [map[string]string], so the type assertion in the readers holds for
    every entry and the entries are kept at that type. *)
Abbreviation Cache := (gmap string (gmap string string)).

(** The loop of [registerModel], over the fields still to visit. *)
Fixpoint fillFieldMap (fields : list (StructField * any))
                      (fieldMap : gmap string string) : gmap string string :=
  match fields with
  | [] => fieldMap
  | fv :: rest =>
      let field := fst fv in
      let column :=
        match Lookup (Tag field) "db" with
        | Some tag => tag
        | None => Name field
        end in
      fillFieldMap rest (<[Name field := column]> fieldMap)
  end.

Definition registerModel (model : any) (cache : Cache) : option Cache :=
  match Fields model with
  | None => None
  | Some fields =>
      let fieldMap := fillFieldMap fields ∅ in
      match TypeName model with
      | None => None
      | Some name => Some (<[name := fieldMap]> cache)
      end
  end.

Fixpoint RegisterModels (models : list any) (cache : Cache) : option Cache :=
  match models with
  | [] => Some cache
  | model :: rest =>
      match registerModel model cache with
      | None => None
      | Some cache' => RegisterModels rest cache'
      end
  end.

(** [GetFields[T]()]; [typeName] is the bare name of [T]. *)
Definition GetFields (typeName : string) (cache : Cache) : option (gmap string string) :=
  match cache !! typeName with
  | Some fieldMap => Some fieldMap
  | None => None
  end.

Definition GetField (model : any) (fieldName : string) (cache : Cache) : option string :=
  match TypeName model with
  | None => None
  | Some name =>
      match cache !! name with
      | Some fieldMap =>
          match fieldMap !! fieldName with
          | Some column => Some column
          | None => None
          end
      | None => None
      end
  end.

End utils.

(** ** Package [result]: the result envelope *)

Module result.

Record RestfulResult (T : Type) : Type := {
  Data : T;
  Message : string;
  Code : Z;
  Success : bool
}.
Arguments Data {T} _.
Arguments Message {T} _.
Arguments Code {T} _.
Arguments Success {T} _.

Definition NewSuccessResult {T : Type} (data : T) (message : string)
  : RestfulResult T :=
  {| Data := data; Message := message; Code := 200; Success := true |}.

Definition NewSuccessResultWithCode {T : Type} (data : T) (code : Z) (message : string)
  : option (RestfulResult T) :=
  if ((code <? 200) || (code >=? 300))%bool then None
  else Some {| Data := data; Message := message; Code := code; Success := true |}.

(** [zero] is the zero value of [T], which the composite literal leaves
    in [Data]. *)
Definition NewErrorResult {T : Type} (zero : T) (message : string) (code : Z)
  : RestfulResult T :=
  {| Data := zero; Message := message; Code := code; Success := false |}.

End result.

(** ** Package [repository]: the generic repository *)

Module repository.

Section GenericRepository.

(** The database handle [r.db], seen through the two calls made on it:
    [QueryRow(sql, args...)] followed by [Scan], which gives the
    scanned entity or an error, and [Exec(sql, args...)], of which the
    error is kept. *)
Context {entity error : Type}.

Record DB : Type := {
  QueryRowScan : string -> list any -> error + entity;
  Exec : string -> list any -> option error
}.

(** The bare name of the entity type [T]. *)
Variable typeName : string.

(** The statement [GetByID] builds: the pair returned by [qb.Build()]. *)
Definition GetByIDQuery (id : any) : string * list any :=
  let qb := query.Limit 1 (query.WhereEqual "ID" id query.NewQueryBuilder) in
  fst (query.Build typeName qb).

Definition GetByID (db : DB) (id : any) : error + entity :=
  let '(sqlQuery, args) := GetByIDQuery id in
  match QueryRowScan db sqlQuery args with
  | inl err => inl err
  | inr entityInstance => inr entityInstance
  end.

(** The statement [Delete] builds. *)
Definition DeleteQuery (id : any) : string * list any :=
  let qb := query.WhereEqual "ID" id (query.Delete query.NewQueryBuilder) in
  fst (query.Build typeName qb).

Definition Delete (db : DB) (id : any) : option error :=
  let '(sql, args) := DeleteQuery id in
  Exec db sql args.

(** The earlier [GetByID], over the earlier builder. [fields] is the
    field map of [T] that it reads from the registry; indexing a Go map
    at a missing key gives the empty string. *)
Definition GetByIDQuery_v0 (fields : gmap string string) (id : any)
  : string * list any :=
  let idColumn := default "" (fields !! "ID") in
  let qb := query_builder.Limit 1
              (query_builder.WhereEqual idColumn id
                 (query_builder.Select [idColumn] query_builder.NewQueryBuilder)) in
  fst (query_builder.Build typeName qb).

Definition GetByID_v0 (db : DB) (fields : gmap string string) (id : any)
  : error + entity :=
  let '(sql, args) := GetByIDQuery_v0 fields id in
  match QueryRowScan db sql args with
  | inl err => inl err
  | inr e => inr e
  end.

(** The statement [GetAll] builds. *)
Definition GetAllQuery : string * list any :=
  fst (query.Build typeName query.NewQueryBuilder).

(** The loop of [GetAll] over the rows of the cursor, each given by the
    outcome of [rows.Scan(&entity)]; [results] is the slice built so far. *)
Fixpoint scanRows (rows : list (error + entity)) (results : list entity)
  : error + list entity :=
  match rows with
  | [] => inr results
  | inl err :: _ => inl err
  | inr e :: rest => scanRows rest (results ++ [e])
  end.

(** [GetAll]; [Query] is [r.db.Query]: an error, or the cursor. *)
Definition GetAll (Query : string -> list any -> error + list (error + entity))
  : error + list entity :=
  let '(sql, args) := GetAllQuery in
  match Query sql args with
  | inl err => inl err
  | inr rows => scanRows rows []
  end.

(** [Create]; [ent] is the value [*entity]. The outer [option] is the
    panic of [Insert], the inner one the error of [Exec]. *)
Definition Create (db : DB) (ent : any) : option (option error) :=
  match query.Insert ent query.NewQueryBuilder with
  | None => None
  | Some qb =>
      let '(sql, args) := fst (query.Build typeName qb) in
      Some (Exec db sql args)
  end.

(** [Update]; [ent] is the value [*ent]. *)
Definition Update (db : DB) (ent : any) : option (option error) :=
  match FieldByName ent "ID" with
  | None => None
  | Some fv =>
      match Interface fv with
      | None => None
      | Some idValue =>
          match query.Update ent query.NewQueryBuilder with
          | None => None
          | Some qb =>
              let qb := query.WhereEqual "ID" idValue qb in
              let '(sql, args) := fst (query.Build typeName qb) in
              Some (Exec db sql args)
          end
      end
  end.

(** The earlier [Delete], over the earlier builder; [fields] is the field
    map of [T] read from the registry. *)
Definition DeleteQuery_v0 (fields : gmap string string) (id : any)
  : string * list any :=
  let idColumn := default "" (fields !! "ID") in
  let qb := query_builder.WhereEqual idColumn id query_builder.NewQueryBuilder in
  fst (query_builder.Build typeName qb).

Definition Delete_v0 (db : DB) (fields : gmap string string) (id : any)
  : option error :=
  let '(sql, args) := DeleteQuery_v0 fields id in
  Exec db sql args.

End GenericRepository.

End repository.

(** ** Vocabulary of the properties *)

(** The builder [qb] with its where-clauses and its argument list replaced. *)
Definition withWhere (clauses : list string) (args : list any)
                     (qb : query.QueryBuilder) : query.QueryBuilder :=
  {| query.selectFields := query.selectFields qb;
     query.whereClauses := clauses;
     query.whereArgs := args;
     query.joins := query.joins qb; query.limit := query.limit qb;
     query.orderBy := query.orderBy qb;
     query.insertFields := query.insertFields qb;
     query.insertValues := query.insertValues qb;
     query.updateFields := query.updateFields qb |}.

(** One call of the builder's chain. *)
Inductive Call : Type :=
| CallInsert (data : any)
| CallUpdate (data : any)
| CallDelete
| CallSelect (fields : list string)
| CallWhereEqual (field : string) (value : any)
| CallOrderByASC (field : string)
| CallOrderByDESC (field : string)
| CallJoin (table onCondition : string)
| CallLimit (n : Z).

Definition call (c : Call) (qb : query.QueryBuilder) : option query.QueryBuilder :=
  match c with
  | CallInsert data => query.Insert data qb
  | CallUpdate data => query.Update data qb
  | CallDelete => Some (query.Delete qb)
  | CallSelect fields => Some (query.Select fields qb)
  | CallWhereEqual field value => Some (query.WhereEqual field value qb)
  | CallOrderByASC field => Some (query.OrderByASC field qb)
  | CallOrderByDESC field => Some (query.OrderByDESC field qb)
  | CallJoin table onCondition => Some (query.Join table onCondition qb)
  | CallLimit n => Some (query.Limit n qb)
  end.

(** The calls made in order on [qb]; a panic ends the chain. *)
Fixpoint chain (calls : list Call) (qb : query.QueryBuilder)
  : option query.QueryBuilder :=
  match calls with
  | [] => Some qb
  | c :: rest =>
      match call c qb with
      | None => None
      | Some qb' => chain rest qb'
      end
  end.

Definition isLimit (c : Call) : bool :=
  match c with
  | CallLimit _ => true
  | _ => false
  end.




(** The update fragments of a struct's fields, in declaration order. *)
Definition updateFragments (fields : list (StructField * any)) : list string :=
  map (fun fv => Name (fst fv) +:+ " = ?") fields.

(** The values a struct's fields hold, in declaration order. *)
Definition fieldValues (fields : list (StructField * any)) : list any :=
  map snd fields.

(** Every field is exported. *)
Definition allExported (fields : list (StructField * any)) : bool :=
  forallb (fun fv => String.eqb (PkgPath (fst fv)) "") fields.

(** The column of a field: the value of its [db] tag when it has one, and
    its own name otherwise. *)
Definition columnOf (field : StructField) : string :=
  match Lookup (Tag field) "db" with
  | Some tag => tag
  | None => Name field
  end.

Definition isStruct (v : any) : bool :=
  match v with
  | Struct _ _ => true
  | _ => false
  end.

(** The type of [v] has the bare name [name]. *)
Definition hasTypeName (name : string) (v : any) : bool :=
  match TypeName v with
  | Some n => String.eqb n name
  | None => false
  end.

Definition hasFieldName (name : string) (fv : StructField * any) : bool :=
  String.eqb (Name (fst fv)) name.

(** A model whose type has the bare name [name] is among the registered
    [models]. *)
Definition registered (models : list any) (name : string) : bool :=
  existsb (hasTypeName name) models.

(** The type of [model] is registered: it has a type, and a model with its
    bare name is among [models]. *)
Definition typeRegistered (models : list any) (model : any) : bool :=
  match TypeName model with
  | Some name => registered models name
  | None => false
  end.

(** Two struct types with the bare name [User], as two packages may
    declare them: [models.User] and [dto.User]. *)
Definition modelsUser : any :=
  Struct "User"
    [({| Name := "ID"; PkgPath := ""; Tag := [("db", "id")] |}, Int 0);
     ({| Name := "Name"; PkgPath := ""; Tag := [("db", "name")] |}, Str "")].

Definition dtoUser : any :=
  Struct "User"
    [({| Name := "ID"; PkgPath := ""; Tag := [] |}, Int 0);
     ({| Name := "Email"; PkgPath := ""; Tag := [] |}, Str "")].

(** The struct type of a value: its bare name and its field declarations. *)
Definition structType (v : any) : option (string * list StructField) :=
  match v with
  | Struct name fields => Some (name, map fst fields)
  | _ => None
  end.

(** A value [Insert] and [Update] accept: a struct whose fields are all
    exported. *)
Definition insertable (data : any) : bool :=
  match data with
  | Struct _ fields => allExported fields
  | _ => false
  end.

(** The names of a struct's fields, in declaration order. *)
Definition fieldNames (fields : list (StructField * any)) : list string :=
  map (fun fv => Name (fst fv)) fields.

Definition isInsert (c : Call) : bool :=
  match c with
  | CallInsert _ => true
  | _ => false
  end.





(** [Build] is on its SELECT branch for [qb]. *)
Definition onSelectBranch (qb : query.QueryBuilder) : bool :=
  ((length (query.insertFields qb) =? 0)%nat
   && (length (query.updateFields qb) =? 0)%nat
   && (length (query.whereClauses qb) =? 0)%nat)%bool.

(** The builder [qb] with its select fields, joins, ORDER BY fragments and
    limit replaced. *)
Definition withSelectParts (fields joinFragments order : list string) (n : Z)
                           (qb : query.QueryBuilder) : query.QueryBuilder :=
  {| query.selectFields := fields;
     query.whereClauses := query.whereClauses qb;
     query.whereArgs := query.whereArgs qb;
     query.joins := joinFragments; query.limit := n;
     query.orderBy := order;
     query.insertFields := query.insertFields qb;
     query.insertValues := query.insertValues qb;
     query.updateFields := query.updateFields qb |}.

(** [WhereEqual] called once per condition, in order. *)
Definition whereAll (conditions : list (string * any)) (qb : query.QueryBuilder)
  : query.QueryBuilder :=
  fold_left (fun q c => query.WhereEqual (fst c) (snd c) q) conditions qb.

(** The rows of a cursor whose every [Scan] succeeds. *)
Definition rowsOf {entity error : Type} (entities : list entity)
  : list (error + entity) :=
  map inr entities.

(** On the earlier builder: [Select(fields...)], then [WhereEqual] once
    per condition in order, then [Limit(n)]. *)
Definition selectWhereLimit (fields : list string) (conditions : list (string * any))
                            (n : Z) : query_builder.QueryBuilder :=
  query_builder.Limit n
    (fold_left (fun q c => query_builder.WhereEqual (fst c) (snd c) q) conditions
       (query_builder.Select fields query_builder.NewQueryBuilder)).

(** On the current builder: [Select(fields...)], then [Join] once per
    pair of a table and a condition, then [OrderByDESC] or [OrderByASC] once
    per pair of a field and a flag (descending when set), each in order. *)
Definition selectJoinOrder (fields : list string)
                           (joinList : list (string * string))
                           (orders : list (string * bool)) : query.QueryBuilder :=
  fold_left
    (fun (q : query.QueryBuilder) (o : string * bool) =>
       if snd o then query.OrderByDESC (fst o) q
                else query.OrderByASC (fst o) q)
    orders
    (fold_left (fun (q : query.QueryBuilder) (j : string * string) =>
       query.Join (fst j) (snd j) q) joinList
       (query.Select fields query.NewQueryBuilder)).

(** The fields of [entity.Entity[TKey, TUserId]] with their tags, holding
    the given values. *)
Definition entityFields (id createdAt updatedAt deleteAt updatedBy deletedBy
                         createdBy : any) : list (StructField * any) :=
  [({| Name := "ID"; PkgPath := ""; Tag := [("json", "id")] |}, id);
   ({| Name := "CreatedAt"; PkgPath := ""; Tag := [("json", "created_at")] |}, createdAt);
   ({| Name := "UpdatedAt"; PkgPath := ""; Tag := [("json", "updated_at")] |}, updatedAt);
   ({| Name := "DeleteAt"; PkgPath := ""; Tag := [("json", "delete_at")] |}, deleteAt);
   ({| Name := "UpdatedBy"; PkgPath := ""; Tag := [("json", "updated_by")] |}, updatedBy);
   ({| Name := "DeletedBy"; PkgPath := ""; Tag := [("json", "deleted_by")] |}, deletedBy);
   ({| Name := "CreatedBy"; PkgPath := ""; Tag := [("json", "created_by")] |}, createdBy)].

(** No field carries a [db] tag. *)
Definition noDbTag (fields : list (StructField * any)) : bool :=
  forallb (fun fv => match Lookup (Tag (fst fv)) "db" with
                     | Some _ => false
                     | None => true
                     end) fields.

(** Lower case, letter by letter: each of the letters A to Z is replaced by
    its small letter and every other character is kept. *)
Definition lowerLetter (c : ascii) : ascii :=
  match c with
  | "A" => "a" | "B" => "b" | "C" => "c" | "D" => "d" | "E" => "e"
  | "F" => "f" | "G" => "g" | "H" => "h" | "I" => "i" | "J" => "j"
  | "K" => "k" | "L" => "l" | "M" => "m" | "N" => "n" | "O" => "o"
  | "P" => "p" | "Q" => "q" | "R" => "r" | "S" => "s" | "T" => "t"
  | "U" => "u" | "V" => "v" | "W" => "w" | "X" => "x" | "Y" => "y"
  | "Z" => "z"
  | _ => c
  end%char.

(** The name [s] in lower case: its characters in order, each through
    [lowerLetter]. *)
Definition lowercased (s : string) : string :=
  string_of_list_ascii (map lowerLetter (list_ascii_of_string s)).

(** Every byte of [s] is an ASCII character. *)
Definition isASCII (s : string) : bool :=
  forallb (fun c => Nat.ltb (nat_of_ascii c) 128) (list_ascii_of_string s).

(** ** Strings *)

Lemma append_assoc (a b c : string) : (a +:+ b) +:+ c = a +:+ (b +:+ c).
Proof.
  induction a as [|ch a IH]; [reflexivity|].
  change (String ch ((a +:+ b) +:+ c) = String ch (a +:+ (b +:+ c))).
  now rewrite IH.
Qed.

Lemma prefix_append (p s : string) : String.prefix p (p +:+ s) = true.
Proof.
  induction p as [|ch p IH]; [now destruct s|].
  change (String.prefix (String ch p) (String ch (p +:+ s)) = true).
  cbn. destruct (ascii_dec ch ch); [exact IH | congruence].
Qed.

Lemma append_nil_r (a : string) : a +:+ "" = a.
Proof.
  induction a as [|ch a IH]; [reflexivity|].
  change (String ch (a +:+ "") = String ch a). now rewrite IH.
Qed.

(** Unfolds [query.Build] on a builder whose deciding slices are in
    constructor form, and brings the text written to the right-nested
    form. *)
Ltac build_norm :=
  unfold query.Build, query.WriteString;
  cbn [query.selectFields query.whereClauses query.whereArgs query.joins
       query.limit query.orderBy query.insertFields query.insertValues
       query.updateFields length Nat.ltb Nat.leb Nat.eqb andb fst snd];
  rewrite ?append_assoc, ?append_nil_r.

(** ** The statement kind chosen by [Build] *)

(** C1. For every builder state, [Build] picks the statement by a fixed
    priority. With insert columns it renders
    [INSERT INTO <table> (<columns>) VALUES (?, ..., ?)], returns the
    insert values, and neither the text nor the arguments depend on the
    where-clauses or the where-arguments. Otherwise, with update fragments
    it renders [UPDATE <table> SET <fragments>] followed by the WHERE
    clause if there is one, with the shared argument list. Otherwise, with
    where-clauses it renders [DELETE FROM <table> WHERE ...]. Otherwise it
    renders the SELECT statement: the columns or [*], the table, the
    joins, the ORDER BY clause and the LIMIT placeholder. *)
Theorem C1_build_statement_priority :
  forall (typeName : string) (qb : query.QueryBuilder),
    let table := strings.ToLower typeName in
    let out := fst (query.Build typeName qb) in
    (query.insertFields qb <> [] ->
       out = ("INSERT INTO " +:+ table +:+ " ("
                +:+ strings.Join (query.insertFields qb) ", "
                +:+ ") VALUES ("
                +:+ strings.Join (repeat "?" (length (query.insertFields qb))) ", "
                +:+ ")",
              query.insertValues qb)
       /\ forall clauses args,
            fst (query.Build typeName (withWhere clauses args qb)) = out)
    /\ (query.insertFields qb = [] -> query.updateFields qb <> [] ->
          out = ("UPDATE " +:+ table +:+ " SET "
                   +:+ strings.Join (query.updateFields qb) ", "
                   +:+ (if (0 <? length (query.whereClauses qb))%nat
                        then " WHERE " +:+ strings.Join (query.whereClauses qb) " AND "
                        else ""),
                 query.whereArgs qb))
    /\ (query.insertFields qb = [] -> query.updateFields qb = [] ->
        query.whereClauses qb <> [] ->
          out = ("DELETE FROM " +:+ table +:+ " WHERE "
                   +:+ strings.Join (query.whereClauses qb) " AND ",
                 query.whereArgs qb))
    /\ (query.insertFields qb = [] -> query.updateFields qb = [] ->
        query.whereClauses qb = [] ->
          String.prefix "SELECT " (fst out) = true
          /\ out = ("SELECT "
                     +:+ (if (0 <? length (query.selectFields qb))%nat
                          then strings.Join (query.selectFields qb) ", " else "*")
                     +:+ " FROM " +:+ table
                     +:+ (if (0 <? length (query.joins qb))%nat
                          then " " +:+ strings.Join (query.joins qb) " " else "")
                     +:+ (if (0 <? length (query.orderBy qb))%nat
                          then " ORDER BY " +:+ strings.Join (query.orderBy qb) ", "
                          else "")
                     +:+ (if 0 <? query.limit qb then " LIMIT ?" else ""),
                   if 0 <? query.limit qb
                   then query.whereArgs qb ++ [Int (query.limit qb)]
                   else query.whereArgs qb)).
Proof.
  intros typeName [sf wc wa js lim ob inf inv uf] table out. subst out table.
  cbn [query.insertFields query.updateFields query.whereClauses
       query.insertValues query.whereArgs query.selectFields query.joins
       query.orderBy query.limit].
  split; [|split; [|split]].
  - intros Hi. destruct inf as [|c inf]; [congruence|]. split.
    + build_norm. reflexivity.
    + intros clauses args. reflexivity.
  - intros -> Hu. destruct uf as [|u uf]; [congruence|].
    destruct wc; build_norm; reflexivity.
  - intros -> -> Hw. destruct wc as [|w wc]; [congruence|]. build_norm. reflexivity.
  - intros -> -> ->. split.
    + destruct sf, js, ob; build_norm;
        destruct (0 <? lim); cbn [fst]; apply (prefix_append "SELECT ").
    + destruct sf, js, ob; build_norm;
        destruct (0 <? lim); cbn [fst]; rewrite ?append_nil_r; reflexivity.
Qed.

(** The README's example chain of calls, on the current builder. *)
Example readme_chain_current :
  query.Limit 10
    (query.OrderByASC "name"
       (query.WhereEqual "age" (Int 25)
          (query.Select ["id"; "name"] query.NewQueryBuilder)))
  = {| query.selectFields := ["id"; "name"];
       query.whereClauses := ["age = ?"];
       query.whereArgs := [Int 25];
       query.joins := []; query.limit := 10;
       query.orderBy := ["name ASC"];
       query.insertFields := []; query.insertValues := [];
       query.updateFields := [] |}.
Proof. reflexivity. Qed.

(** C3. On the current builder the chain
    [Select("id","name").WhereEqual("age",25).OrderByASC("name").Limit(10)]
    for the entity type [User] does not render the SELECT statement of the
    README: a where-clause is present, so [Build] takes the DELETE branch
    and returns [DELETE FROM user WHERE age = ?] with the arguments [25]. *)
Theorem C3_select_where_chain_renders_delete :
  fst (query.Build "User"
         (query.Limit 10
            (query.OrderByASC "name"
               (query.WhereEqual "age" (Int 25)
                  (query.Select ["id"; "name"] query.NewQueryBuilder)))))
  = ("DELETE FROM user WHERE age = ?", [Int 25]).
Proof. reflexivity. Qed.

(** The earlier builder renders the same chain as the README documents. *)
Lemma readme_chain_earlier_builder :
  fst (query_builder.Build "User"
         (query_builder.Limit 10
            (query_builder.OrderByASC "name"
               (query_builder.WhereEqual "age" (Int 25)
                  (query_builder.Select ["id"; "name"]
                     query_builder.NewQueryBuilder)))))
  = ("SELECT id, name FROM user WHERE age = ? ORDER BY name ASC LIMIT ?",
     [Int 25; Int 10]).
Proof. reflexivity. Qed.

(** [strings.ToLower] moves each byte as the letter table does. *)
Lemma lowerByte_lowerLetter (c : ascii) : strings.lowerByte c = lowerLetter c.
Proof. destruct c as [[] [] [] [] [] [] [] []]; reflexivity. Qed.

Lemma ToLower_lowercased (s : string) : strings.ToLower s = lowercased s.
Proof.
  unfold lowercased. induction s as [|c s IH]; [reflexivity|].
  cbn [strings.ToLower list_ascii_of_string map string_of_list_ascii].
  now rewrite IH, lowerByte_lowerLetter.
Qed.

(** C4. A builder on which only [WhereEqual("id", 7)] was called renders
    [DELETE FROM <table> WHERE id = ?] with the arguments [7], where
    [<table>] is the entity type's bare name in lower case: the name with
    each of its letters A to Z replaced by the small letter. The name is
    one written in ASCII, where [strings.ToLower] is modelled. *)
Theorem C4_where_only_renders_delete :
  forall typeName : string,
    isASCII typeName = true ->
    fst (query.Build typeName
           (query.WhereEqual "id" (Int 7) query.NewQueryBuilder))
    = ("DELETE FROM " +:+ lowercased typeName +:+ " WHERE id = ?", [Int 7]).
Proof.
  intros typeName _. build_norm. now rewrite ToLower_lowercased.
Qed.

(** C4 for the entity type [UserAccount]: the table is [useraccount]. *)
Lemma C4_witness :
  fst (query.Build "UserAccount"
         (query.WhereEqual "id" (Int 7) query.NewQueryBuilder))
  = ("DELETE FROM useraccount WHERE id = ?", [Int 7]).
Proof.
  exact (C4_where_only_renders_delete "UserAccount" eq_refl).
Defined.

Example table_name_of_User : strings.ToLower "User" = "user".
Proof. reflexivity. Qed.

(** ** The statement sent by [GetByID] *)

(** C2. The current [GetByID] does not send a SELECT: its builder has a
    where-clause and no insert or update field, so [Build] renders
    [DELETE FROM <table> WHERE ID = ?] with the id as the only argument.
    The limit 1 is not among the arguments, and the statement handed to
    [QueryRow] is the one [Delete] hands to [Exec]. *)
Theorem C2_GetByID_sends_delete :
  forall (entity error : Type) (typeName : string)
         (db : @repository.DB entity error) (id : any),
    repository.GetByIDQuery typeName id
      = ("DELETE FROM " +:+ strings.ToLower typeName +:+ " WHERE ID = ?", [id])
    /\ repository.GetByIDQuery typeName id = repository.DeleteQuery typeName id
    /\ repository.GetByID typeName db id
       = repository.QueryRowScan db
           ("DELETE FROM " +:+ strings.ToLower typeName +:+ " WHERE ID = ?") [id].
Proof.
  intros entity error typeName db id.
  assert (Hq : repository.GetByIDQuery typeName id
               = ("DELETE FROM " +:+ strings.ToLower typeName +:+ " WHERE ID = ?", [id])).
  { unfold repository.GetByIDQuery. build_norm. reflexivity. }
  split; [exact Hq|]. split.
  - rewrite Hq. unfold repository.DeleteQuery. build_norm. reflexivity.
  - unfold repository.GetByID. rewrite Hq.
    now destruct (repository.QueryRowScan db _ _).
Qed.

(** The earlier [GetByID], over the earlier builder, sends a SELECT with
    the limit 1 after the id. *)
Lemma GetByID_v0_sends_select :
  forall (typeName : string) (fields : gmap string string) (id : any),
    let idColumn := default "" (fields !! "ID") in
    repository.GetByIDQuery_v0 typeName fields id
    = ("SELECT " +:+ idColumn +:+ " FROM " +:+ strings.ToLower typeName
         +:+ " WHERE " +:+ idColumn +:+ " = ?" +:+ " LIMIT ?",
       [id; Int 1]).
Proof.
  intros typeName fields id idColumn.
  unfold repository.GetByIDQuery_v0, query_builder.Build, query_builder.WriteString.
  cbn [query_builder.selectFields query_builder.whereClauses query_builder.whereArgs
       query_builder.joins query_builder.limit query_builder.orderBy
       query_builder.Limit query_builder.WhereEqual query_builder.Select
       query_builder.NewQueryBuilder app length Nat.ltb Nat.leb Z.ltb Z.compare
       fst snd strings.Join].
  fold idColumn. rewrite ?append_assoc. reflexivity.
Qed.

(** ** The result envelope *)

(** C9. [NewSuccessResultWithCode] panics exactly when the code is outside
    200..299; for a code inside it returns the result with that code, the
    given data and message, and the success flag set. [NewSuccessResult]
    returns code 200 with the success flag set. *)
Theorem C9_success_result_code_range :
  forall (T : Type) (data : T) (code : Z) (message : string),
    (result.NewSuccessResultWithCode data code message = None
       <-> ~ (200 <= code <= 299))
    /\ (200 <= code <= 299 ->
        result.NewSuccessResultWithCode data code message
        = Some {| result.Data := data; result.Message := message;
                  result.Code := code; result.Success := true |})
    /\ result.Code (result.NewSuccessResult data message) = 200
    /\ result.Success (result.NewSuccessResult data message) = true
    /\ result.Data (result.NewSuccessResult data message) = data
    /\ result.Message (result.NewSuccessResult data message) = message.
Proof.
  intros T data code message. unfold result.NewSuccessResultWithCode.
  destruct (code <? 200) eqn:Hlo; destruct (code >=? 300) eqn:Hhi; cbn [orb];
    repeat split; try (intros; congruence); try reflexivity; intros; try lia.
Qed.


(** ** The limit argument *)

Lemma Limit_commutes_InsertFields fields : forall n qb,
  query.InsertFields fields (query.Limit n qb)
  = option_map (query.Limit n) (query.InsertFields fields qb).
Proof.
  induction fields as [|fv rest IH]; intros n qb; [reflexivity|].
  cbn [query.InsertFields]. destruct (Interface fv); [|reflexivity].
  rewrite <- IH. reflexivity.
Qed.

Lemma Limit_commutes_UpdateFields fields : forall n qb,
  query.UpdateFields fields (query.Limit n qb)
  = option_map (query.Limit n) (query.UpdateFields fields qb).
Proof.
  induction fields as [|fv rest IH]; intros n qb; [reflexivity|].
  cbn [query.UpdateFields]. destruct (Interface fv); [|reflexivity].
  rewrite <- IH. reflexivity.
Qed.

(** [Limit] only stores its argument, so it commutes with every other
    call of the chain. *)
Lemma Limit_commutes (c : Call) (n : Z) (qb : query.QueryBuilder) :
  isLimit c = false ->
  call c (query.Limit n qb) = option_map (query.Limit n) (call c qb).
Proof.
  destruct c; cbn [isLimit call]; intros H; try reflexivity; try discriminate.
  - unfold query.Insert. destruct (Fields data); [|reflexivity].
    apply Limit_commutes_InsertFields.
  - unfold query.Update. destruct (Fields data); [|reflexivity].
    apply Limit_commutes_UpdateFields.
Qed.

(** On the SELECT branch with a positive limit, [Build] renders the text
    it renders without a limit followed by [LIMIT ?], and appends the limit
    to the argument list, which it stores back. *)
Lemma Build_select_positive_limit typeName sf wa js lim ob inv :
  0 < lim ->
  query.Build typeName
    {| query.selectFields := sf; query.whereClauses := [];
       query.whereArgs := wa; query.joins := js; query.limit := lim;
       query.orderBy := ob; query.insertFields := [];
       query.insertValues := inv; query.updateFields := [] |}
  = ((fst (fst (query.Build typeName
                  {| query.selectFields := sf; query.whereClauses := [];
                     query.whereArgs := []; query.joins := js; query.limit := 0;
                     query.orderBy := ob; query.insertFields := [];
                     query.insertValues := inv; query.updateFields := [] |}))
        +:+ " LIMIT ?",
      wa ++ [Int lim]),
     {| query.selectFields := sf; query.whereClauses := [];
        query.whereArgs := wa ++ [Int lim]; query.joins := js; query.limit := lim;
        query.orderBy := ob; query.insertFields := [];
        query.insertValues := inv; query.updateFields := [] |}).
Proof.
  intros Hlim. assert (Hpos : (0 <? lim) = true) by lia.
  unfold query.Build, query.WriteString.
  cbn [query.selectFields query.whereClauses query.whereArgs query.joins
       query.limit query.orderBy query.insertFields query.insertValues
       query.updateFields length Nat.ltb Nat.leb Nat.eqb andb].
  rewrite Hpos. reflexivity.
Qed.

(** C5. For every builder on the SELECT branch with limit [n > 0], [Build]
    returns the stored argument list with [n] appended as its last element
    and stores that list back in the builder; a second [Build] on the same
    builder therefore returns the list with [n] appended twice, which
    differs from the first result, under the same SQL text ending in
    [LIMIT ?]. [Limit] commutes with every other call, so when it was
    called does not matter. *)
Theorem C5_limit_appended_on_each_build :
  forall (typeName : string) (qb : query.QueryBuilder),
    query.insertFields qb = [] ->
    query.updateFields qb = [] ->
    query.whereClauses qb = [] ->
    0 < query.limit qb ->
    let n := Int (query.limit qb) in
    let first := query.Build typeName qb in
    let second := query.Build typeName (snd first) in
    snd (fst first) = query.whereArgs qb ++ [n]
    /\ last (snd (fst first)) = Some n
    /\ query.whereArgs (snd first) = query.whereArgs qb ++ [n]
    /\ snd (fst second) = (query.whereArgs qb ++ [n]) ++ [n]
    /\ snd (fst second) <> snd (fst first)
    /\ fst (fst second) = fst (fst first)
    /\ (exists text, fst (fst first) = text +:+ " LIMIT ?")
    /\ (forall c m, isLimit c = false ->
          call c (query.Limit m qb) = option_map (query.Limit m) (call c qb)).
Proof.
  intros typeName qb Hi Hu Hw Hlim n first second.
  destruct qb as [sf wc wa js lim ob inf inv uf].
  cbn [query.insertFields query.updateFields query.whereClauses query.limit
       query.whereArgs] in *.
  subst inf uf wc second first.
  rewrite !Build_select_positive_limit by exact Hlim.
  cbn [fst snd query.whereArgs].
  rewrite Build_select_positive_limit by exact Hlim.
  cbn [fst snd query.whereArgs].
  repeat split.
  - apply last_snoc.
  - intros Heq. apply (f_equal (@length any)) in Heq.
    rewrite !length_app in Heq. cbn in Heq. lia.
  - eexists. reflexivity.
  - intros c m Hc. now apply Limit_commutes.
Qed.

(** The earlier builder has the SELECT branch only: there the limit is
    appended after the where-arguments on every [Build]. *)
Lemma earlier_builder_limit_appended_on_each_build :
  forall (typeName : string) (qb : query_builder.QueryBuilder),
    0 < query_builder.limit qb ->
    let n := Int (query_builder.limit qb) in
    let first := query_builder.Build typeName qb in
    let second := query_builder.Build typeName (snd first) in
    snd (fst first) = query_builder.whereArgs qb ++ [n]
    /\ snd (fst second) = (query_builder.whereArgs qb ++ [n]) ++ [n]
    /\ fst (fst second) = fst (fst first).
Proof.
  intros typeName qb Hlim n first second.
  destruct qb as [sf wc wa js lim ob]. cbn [query_builder.limit] in Hlim.
  assert (Hpos : (0 <? lim) = true) by lia.
  subst second first n. unfold query_builder.Build.
  cbn [query_builder.selectFields query_builder.whereClauses
       query_builder.whereArgs query_builder.joins query_builder.limit
       query_builder.orderBy].
  rewrite Hpos.
  cbn [fst snd query_builder.selectFields query_builder.whereClauses
       query_builder.whereArgs query_builder.joins query_builder.limit
       query_builder.orderBy].
  rewrite Hpos. cbn [fst snd]. repeat split.
Qed.

(** The earlier builder with a limit [<= 0] renders no LIMIT clause,
    returns the stored argument list and leaves the builder as it is. *)
Lemma earlier_builder_nonpositive_limit :
  forall (typeName : string) (qb : query_builder.QueryBuilder),
    query_builder.limit qb <= 0 ->
    fst (query_builder.Build typeName qb)
      = fst (query_builder.Build typeName (query_builder.Limit 0 qb))
    /\ snd (fst (query_builder.Build typeName qb)) = query_builder.whereArgs qb
    /\ snd (query_builder.Build typeName qb) = qb.
Proof.
  intros typeName qb Hlim. destruct qb as [sf wc wa js lim ob].
  cbn [query_builder.limit] in Hlim.
  assert (Hneg : (0 <? lim) = false) by lia.
  unfold query_builder.Build.
  cbn [query_builder.selectFields query_builder.whereClauses
       query_builder.whereArgs query_builder.joins query_builder.limit
       query_builder.orderBy query_builder.Limit].
  rewrite Hneg. change (0 <? 0) with false. repeat split.
Qed.








(** ** [Update] followed by [WhereEqual] *)

Lemma UpdateFields_exported (fields : list (StructField * any)) : forall qb,
  allExported fields = true ->
  query.UpdateFields fields qb
  = Some {| query.selectFields := query.selectFields qb;
            query.whereClauses := query.whereClauses qb;
            query.whereArgs := query.whereArgs qb ++ fieldValues fields;
            query.joins := query.joins qb; query.limit := query.limit qb;
            query.orderBy := query.orderBy qb;
            query.insertFields := query.insertFields qb;
            query.insertValues := query.insertValues qb;
            query.updateFields := query.updateFields qb ++ updateFragments fields |}.
Proof.
  induction fields as [|fv rest IH]; intros qb Hexp.
  - destruct qb. cbn. now rewrite !app_nil_r.
  - cbn [allExported forallb] in Hexp. apply andb_true_iff in Hexp as [Hfv Hrest].
    cbn [query.UpdateFields]. unfold Interface. rewrite Hfv.
    rewrite IH by exact Hrest.
    cbn [query.selectFields query.whereClauses query.whereArgs query.joins
         query.limit query.orderBy query.insertFields query.insertValues
         query.updateFields fieldValues updateFragments map].
    now rewrite <- !app_assoc.
Qed.

(** C6, as amended. For every struct value [e] with at least one declared
    field, all of them exported, [Update(e)] appends one ["<field> = ?"]
    fragment per declared field in declaration order and pushes each
    field's value onto the argument list shared with the where-arguments;
    on a fresh builder, [Update(e)] followed by [WhereEqual(f, v)] makes
    [Build] return [UPDATE <table> SET <fragments> WHERE f = ?] with the
    field values of [e] followed by [v]. *)
Theorem C6_update_then_where :
  forall (typeName name : string) (fields : list (StructField * any))
         (f : string) (v : any) (qb : query.QueryBuilder),
    fields <> [] ->
    allExported fields = true ->
    (exists qb',
        query.Update (Struct name fields) qb = Some qb'
        /\ query.updateFields qb' = query.updateFields qb ++ updateFragments fields
        /\ query.whereArgs qb' = query.whereArgs qb ++ fieldValues fields)
    /\ (exists qb',
          query.Update (Struct name fields) query.NewQueryBuilder = Some qb'
          /\ fst (query.Build typeName (query.WhereEqual f v qb'))
             = ("UPDATE " +:+ strings.ToLower typeName +:+ " SET "
                  +:+ strings.Join (updateFragments fields) ", "
                  +:+ " WHERE " +:+ f +:+ " = ?",
                fieldValues fields ++ [v])).
Proof.
  intros typeName name fields f v qb Hne Hexp.
  unfold query.Update. cbn [Fields]. split.
  - rewrite UpdateFields_exported by exact Hexp.
    eexists. split; [reflexivity|]. split; reflexivity.
  - rewrite UpdateFields_exported by exact Hexp.
    eexists. split; [reflexivity|].
    destruct fields as [|fv rest]; [congruence|].
    build_norm. cbn [query.WhereEqual query.NewQueryBuilder app updateFragments map].
    build_norm. cbn [strings.Join]. reflexivity.
Qed.

(** C6 fails for a struct type with no field: [Update] leaves the builder
    as it is, and the chain [Update(e).WhereEqual("id", 7)] then renders a
    DELETE statement, not an UPDATE. *)
Lemma C6_counterexample_empty_struct :
  query.Update (Struct "Empty" []) query.NewQueryBuilder
    = Some query.NewQueryBuilder
  /\ fst (query.Build "Empty"
            (query.WhereEqual "id" (Int 7) query.NewQueryBuilder))
     = ("DELETE FROM empty WHERE id = ?", [Int 7])
  /\ String.prefix "UPDATE"
       (fst (fst (query.Build "Empty"
                    (query.WhereEqual "id" (Int 7) query.NewQueryBuilder))))
     = false.
Proof. repeat split. Qed.

(** [Update] panics on a struct with an unexported field. *)
Lemma Update_unexported_field_panics :
  query.Update
    (Struct "account"
       [({| Name := "ID"; PkgPath := ""; Tag := [] |}, Int 1);
        ({| Name := "secret"; PkgPath := "main"; Tag := [] |}, Str "x")])
    query.NewQueryBuilder
  = None.
Proof. reflexivity. Qed.

(** ** The field registry *)

(** Registering a pointer to a struct panics: [NumField] needs a struct. *)
Example registerModel_pointer_panics :
  utils.registerModel (Ptr modelsUser) ∅ = None.
Proof. reflexivity. Qed.

Lemma fillFieldMap_app (a b : list (StructField * any)) : forall fieldMap,
  utils.fillFieldMap (a ++ b) fieldMap
  = utils.fillFieldMap b (utils.fillFieldMap a fieldMap).
Proof.
  induction a as [|fv a IH]; intros fieldMap; [reflexivity|].
  cbn [app utils.fillFieldMap]. apply IH.
Qed.

Lemma fillFieldMap_other (fields : list (StructField * any)) (k : string) :
  forall fieldMap : gmap string string,
    existsb (hasFieldName k) fields = false ->
    utils.fillFieldMap fields fieldMap !! k = fieldMap !! k.
Proof.
  induction fields as [|fv rest IH]; intros fieldMap Hno; [reflexivity|].
  cbn [existsb] in Hno. apply orb_false_iff in Hno as [Hfv Hrest].
  cbn [utils.fillFieldMap]. rewrite IH by exact Hrest.
  apply lookup_insert_ne. unfold hasFieldName in Hfv.
  now apply String.eqb_neq in Hfv.
Qed.

(** A field that no later field of the struct shadows is mapped to its
    column. *)
Lemma fillFieldMap_field (pre post : list (StructField * any))
      (field : StructField) (value : any) (fieldMap : gmap string string) :
  existsb (hasFieldName (Name field)) post = false ->
  utils.fillFieldMap (pre ++ (field, value) :: post) fieldMap !! Name field
  = Some (columnOf field).
Proof.
  intros Hpost. rewrite fillFieldMap_app. cbn [utils.fillFieldMap fst].
  rewrite fillFieldMap_other by exact Hpost.
  apply lookup_insert_eq.
Qed.

Lemma registerModel_struct (name : string) (fields : list (StructField * any))
      (cache : gmap string (gmap string string)) :
  utils.registerModel (Struct name fields) cache
  = Some (<[name := utils.fillFieldMap fields ∅]> cache).
Proof. reflexivity. Qed.

Lemma RegisterModels_app (a b : list any) : forall cache : gmap string (gmap string string),
  utils.RegisterModels (a ++ b) cache
  = match utils.RegisterModels a cache with
    | Some cache' => utils.RegisterModels b cache'
    | None => None
    end.
Proof.
  induction a as [|m a IH]; intros cache; [reflexivity|].
  cbn [app utils.RegisterModels].
  destruct (utils.registerModel m cache); [apply IH | reflexivity].
Qed.

(** Registration returns when every model is a struct value. *)
Lemma RegisterModels_structs (models : list any) :
  forall cache : gmap string (gmap string string),
    forallb isStruct models = true ->
    exists cache', utils.RegisterModels models cache = Some cache'.
Proof.
  induction models as [|m rest IH]; intros cache Hall; [now exists cache|].
  cbn [forallb] in Hall. apply andb_true_iff in Hall as [Hm Hrest].
  destruct m; try discriminate.
  cbn [utils.RegisterModels]. rewrite registerModel_struct. now apply IH.
Qed.

(** Registration changes the cache at the registered type names only, and
    leaves an entry at each of them. *)
Lemma RegisterModels_lookup (models : list any) (name : string) :
  forall cache cache' : gmap string (gmap string string),
    utils.RegisterModels models cache = Some cache' ->
    if registered models name
    then is_Some (cache' !! name)
    else cache' !! name = cache !! name.
Proof.
  induction models as [|m rest IH]; intros cache cache' Hreg.
  - cbn in *. congruence.
  - cbn [utils.RegisterModels] in Hreg.
    destruct (utils.registerModel m cache) as [cache1|] eqn:Hm; [|discriminate].
    specialize (IH _ _ Hreg). unfold registered in *. cbn [existsb].
    destruct (existsb (hasTypeName name) rest); [now rewrite orb_true_r|].
    rewrite orb_false_r. rewrite IH.
    unfold utils.registerModel in Hm.
    destruct (Fields m) as [fields|]; [|discriminate].
    unfold hasTypeName. destruct (TypeName m) as [n|]; [|discriminate].
    injection Hm as <-.
    destruct (String.eqb_spec n name) as [->|Hne].
    + rewrite lookup_insert_eq. eauto.
    + now rewrite lookup_insert_ne.
Qed.

(** C7, as amended. Let [RegisterModels] be called on struct values, one of
    them a model whose bare type name no later model shares. Then
    registration returns, and for every declared field of that model whose
    name no later field of the model repeats (Go lets only the blank name
    repeat), the registered map and [GetField] give the value of the [db]
    tag when the field has one and the field's own name otherwise.
    [GetField] reads this from the cache: it gives the same column for any
    value whose type has that bare name, whatever fields and tags the value
    passed carries. *)
Theorem C7_registered_field_resolves_to_column :
  forall (before after : list any) (name : string)
         (pre post : list (StructField * any))
         (field : StructField) (value : any)
         (cache0 : gmap string (gmap string string)),
    let fields := pre ++ (field, value) :: post in
    let models := before ++ Struct name fields :: after in
    forallb isStruct models = true ->
    registered after name = false ->
    existsb (hasFieldName (Name field)) post = false ->
    exists cache fieldMap,
      utils.RegisterModels models cache0 = Some cache
      /\ utils.GetFields name cache = Some fieldMap
      /\ fieldMap !! Name field = Some (columnOf field)
      /\ utils.GetField (Struct name fields) (Name field) cache
         = Some (columnOf field)
      /\ (forall model' : any,
            TypeName model' = Some name ->
            utils.GetField model' (Name field) cache = Some (columnOf field)).
Proof.
  intros before after name pre post field value cache0 fields models
         Hstructs Hafter Hpost.
  destruct (RegisterModels_structs models cache0 Hstructs) as [cache Hcache].
  exists cache, (utils.fillFieldMap fields ∅).
  assert (Hentry : cache !! name = Some (utils.fillFieldMap fields ∅)).
  { subst models. rewrite RegisterModels_app in Hcache.
    destruct (utils.RegisterModels before cache0) as [cache1|]; [|discriminate].
    cbn [utils.RegisterModels] in Hcache. rewrite registerModel_struct in Hcache.
    pose proof (RegisterModels_lookup after name _ _ Hcache) as Hkeep.
    rewrite Hafter in Hkeep. rewrite Hkeep. apply lookup_insert_eq. }
  assert (Hcol : utils.fillFieldMap fields ∅ !! Name field = Some (columnOf field)).
  { subst fields. now apply fillFieldMap_field. }
  split; [exact Hcache|]. split; [|split; [exact Hcol|split]].
  - unfold utils.GetFields. now rewrite Hentry.
  - unfold utils.GetField. cbn [TypeName]. now rewrite Hentry, Hcol.
  - intros model' Hname. unfold utils.GetField. now rewrite Hname, Hentry, Hcol.
Qed.

(** C7 fails when two registered models share a bare type name: the later
    registration replaces the earlier field map. For the earlier model,
    whose fields [ID] and [Name] carry the tags [id] and [name], the lookup
    of [Name] then panics and the lookup of [ID] gives the column of the
    later model's [ID] field. *)
Lemma C7_counterexample_shared_type_name :
  exists cache,
    utils.RegisterModels [modelsUser; dtoUser] ∅ = Some cache
    /\ utils.GetField modelsUser "Name" cache = None
    /\ utils.GetField modelsUser "ID" cache = Some "ID".
Proof.
  eexists. split; [reflexivity|]. split; vm_compute; reflexivity.
Qed.

(** C8, as amended. After [RegisterModels] on an empty cache, [GetFields]
    panics exactly when no model whose type has that bare name was
    registered, and [GetField] panics exactly when no model with the bare
    type name of the value passed was registered (a nil value has no type)
    or the field name is absent from the map registered under that name;
    when a model with that bare name was registered and the field name is
    present in its map, [GetField] returns the column stored there. *)
Theorem C8_lookup_panics_iff_unregistered_or_absent :
  forall (models : list any) (cache : gmap string (gmap string string)),
    utils.RegisterModels models ∅ = Some cache ->
    (forall typeName : string,
        utils.GetFields typeName cache = None
        <-> registered models typeName = false)
    /\ (forall (model : any) (fieldName : string),
          utils.GetField model fieldName cache = None
          <-> (typeRegistered models model = false
               \/ exists name fieldMap,
                    TypeName model = Some name
                    /\ utils.GetFields name cache = Some fieldMap
                    /\ fieldMap !! fieldName = None))
    /\ (forall (model : any) (fieldName name column : string)
               (fieldMap : gmap string string),
          TypeName model = Some name ->
          utils.GetFields name cache = Some fieldMap ->
          fieldMap !! fieldName = Some column ->
          utils.GetField model fieldName cache = Some column).
Proof.
  intros models cache Hreg.
  assert (Hfields : forall typeName,
             utils.GetFields typeName cache = None
             <-> registered models typeName = false).
  { intros typeName. unfold utils.GetFields.
    pose proof (RegisterModels_lookup models typeName _ _ Hreg) as Hl.
    destruct (registered models typeName).
    - destruct Hl as [fm ->]. split; discriminate.
    - rewrite Hl, lookup_empty. split; reflexivity. }
  split; [exact Hfields|]. split.
  - intros model fieldName. unfold utils.GetField, typeRegistered.
    destruct (TypeName model) as [name|]; [|split; [now left | reflexivity]].
    specialize (Hfields name). unfold utils.GetFields in *.
    destruct (cache !! name) as [fieldMap|] eqn:Hentry.
    + destruct (fieldMap !! fieldName) as [column|] eqn:Hcol.
      * split; [discriminate|]. intros [Hno|(n & fm & Hn & Hfm & Habs)].
        -- apply Hfields in Hno. discriminate.
        -- injection Hn as <-. rewrite Hentry in Hfm. injection Hfm as <-.
           congruence.
      * split; [|reflexivity]. intros _. right. exists name, fieldMap.
        rewrite Hentry. auto.
    + split; [|reflexivity]. intros _. left. now apply Hfields.
  - intros model fieldName name column fieldMap Hname Hfm Hcol.
    unfold utils.GetField, utils.GetFields in *. rewrite Hname.
    destruct (cache !! name); [|discriminate]. injection Hfm as ->.
    now rewrite Hcol.
Qed.

(** C8 fails when an unregistered type shares its bare name with a
    registered one: only [models.User] is registered, [dto.User] is another
    type and was never registered, yet the lookups for it return what was
    registered for [models.User] instead of panicking. *)
Lemma C8_counterexample_shared_type_name :
  exists cache,
    utils.RegisterModels [modelsUser] ∅ = Some cache
    /\ structType dtoUser <> structType modelsUser
    /\ utils.GetField dtoUser "ID" cache = Some "id"
    /\ utils.GetFields "User" cache <> None.
Proof.
  eexists. split; [reflexivity|]. split; [discriminate|].
  split; vm_compute; [reflexivity | discriminate].
Qed.

(** ** Instances *)

(** The DELETE case of C1 on the builder of [WhereEqual("id", 7)]. *)
Lemma C1_witness :
  fst (query.Build "User"
         (query.WhereEqual "id" (Int 7) query.NewQueryBuilder))
  = ("DELETE FROM user WHERE id = ?", [Int 7]).
Proof.
  refine (proj1 (proj2 (proj2
            (C1_build_statement_priority "User"
               (query.WhereEqual "id" (Int 7) query.NewQueryBuilder))))
            eq_refl eq_refl _).
  discriminate.
Defined.

(** C5 on [Select("id").Limit(10)]: the first [Build] returns [10], the
    second [10, 10]. *)
Lemma C5_witness :
  snd (fst (query.Build "User"
              (query.Limit 10 (query.Select ["id"] query.NewQueryBuilder))))
  = [Int 10]
  /\ snd (fst (query.Build "User"
                 (snd (query.Build "User"
                         (query.Limit 10 (query.Select ["id"] query.NewQueryBuilder))))))
     = [Int 10; Int 10].
Proof.
  destruct (C5_limit_appended_on_each_build "User"
              (query.Limit 10 (query.Select ["id"] query.NewQueryBuilder))
              eq_refl eq_refl eq_refl ltac:(cbn; lia))
    as (H1 & _ & _ & H4 & _).
  split; [exact H1 | exact H4].
Defined.

(** C6 on [models.User]: [Update(u).WhereEqual("ID", 0)]. *)
Lemma C6_witness :
  exists qb',
    query.Update modelsUser query.NewQueryBuilder = Some qb'
    /\ fst (query.Build "User" (query.WhereEqual "ID" (Int 0) qb'))
       = ("UPDATE user SET ID = ?, Name = ? WHERE ID = ?",
          [Int 0; Str ""; Int 0]).
Proof.
  refine (proj2 (C6_update_then_where "User" "User"
                   [({| Name := "ID"; PkgPath := ""; Tag := [("db", "id")] |}, Int 0);
                    ({| Name := "Name"; PkgPath := ""; Tag := [("db", "name")] |}, Str "")]
                   "ID" (Int 0) query.NewQueryBuilder _ eq_refl)).
  discriminate.
Defined.

(** C7 on [models.User] registered alone, for its field [Name]. *)
Lemma C7_witness :
  exists cache fieldMap,
    utils.RegisterModels [modelsUser] ∅ = Some cache
    /\ utils.GetFields "User" cache = Some fieldMap
    /\ fieldMap !! "Name" = Some "name"
    /\ utils.GetField modelsUser "Name" cache = Some "name"
    /\ (forall model' : any,
          TypeName model' = Some "User" ->
          utils.GetField model' "Name" cache = Some "name").
Proof.
  exact (C7_registered_field_resolves_to_column [] [] "User"
           [({| Name := "ID"; PkgPath := ""; Tag := [("db", "id")] |}, Int 0)]
           []
           {| Name := "Name"; PkgPath := ""; Tag := [("db", "name")] |} (Str "")
           ∅ eq_refl eq_refl eq_refl).
Defined.

(** C8 after [RegisterModels(models.User{})]: the lookup for an [Order]
    type panics, the lookup of [Name] on a [User] returns its column. *)
Lemma C8_witness :
  exists cache,
    utils.RegisterModels [modelsUser] ∅ = Some cache
    /\ utils.GetFields "Order" cache = None
    /\ utils.GetField modelsUser "Name" cache = Some "name".
Proof.
  eexists. split; [reflexivity|].
  destruct (C8_lookup_panics_iff_unregistered_or_absent [modelsUser] _ eq_refl)
    as (Hfields & _ & Hfield).
  split.
  - apply Hfields. reflexivity.
  - eapply Hfield; [reflexivity | reflexivity | vm_compute; reflexivity].
Defined.

(** C9 at the code 201. *)
Lemma C9_witness :
  result.NewSuccessResultWithCode 7 201 "created"
  = Some {| result.Data := 7; result.Message := "created";
            result.Code := 201; result.Success := true |}.
Proof.
  refine (proj1 (proj2 (C9_success_result_code_range Z 7 201 "created")) _).
  lia.
Defined.


(** ** Further properties of the builder *)

Lemma InsertFields_exported (fields : list (StructField * any)) : forall qb,
  allExported fields = true ->
  query.InsertFields fields qb
  = Some {| query.selectFields := query.selectFields qb;
            query.whereClauses := query.whereClauses qb;
            query.whereArgs := query.whereArgs qb;
            query.joins := query.joins qb; query.limit := query.limit qb;
            query.orderBy := query.orderBy qb;
            query.insertFields := query.insertFields qb ++ fieldNames fields;
            query.insertValues := query.insertValues qb ++ fieldValues fields;
            query.updateFields := query.updateFields qb |}.
Proof.
  induction fields as [|fv rest IH]; intros qb Hexp.
  - destruct qb. cbn. now rewrite !app_nil_r.
  - cbn [allExported forallb] in Hexp. apply andb_true_iff in Hexp as [Hfv Hrest].
    cbn [query.InsertFields]. unfold Interface. rewrite Hfv.
    rewrite IH by exact Hrest.
    cbn [query.selectFields query.whereClauses query.whereArgs query.joins
         query.limit query.orderBy query.insertFields query.insertValues
         query.updateFields fieldValues fieldNames map].
    now rewrite <- !app_assoc.
Qed.

Lemma InsertFields_unexported (fields : list (StructField * any)) : forall qb,
  allExported fields = false -> query.InsertFields fields qb = None.
Proof.
  induction fields as [|fv rest IH]; intros qb Hexp; [discriminate|].
  cbn [allExported forallb] in Hexp. cbn [query.InsertFields]. unfold Interface.
  destruct (String.eqb (PkgPath (fst fv)) ""); [|reflexivity].
  now apply IH.
Qed.

Lemma UpdateFields_unexported (fields : list (StructField * any)) : forall qb,
  allExported fields = false -> query.UpdateFields fields qb = None.
Proof.
  induction fields as [|fv rest IH]; intros qb Hexp; [discriminate|].
  cbn [allExported forallb] in Hexp. cbn [query.UpdateFields]. unfold Interface.
  destruct (String.eqb (PkgPath (fst fv)) ""); [|reflexivity].
  now apply IH.
Qed.

(** X1. [Insert] and [Update] panic exactly when the value passed is not a
    struct or the struct has an unexported field, whatever the state of the
    builder. *)
Theorem X1_insert_update_panic_iff_not_insertable :
  forall (data : any) (qb : query.QueryBuilder),
    (query.Insert data qb = None <-> insertable data = false)
    /\ (query.Update data qb = None <-> insertable data = false).
Proof.
  intros data qb. unfold query.Insert, query.Update, insertable.
  destruct data as [| | | | |name fields]; cbn [Fields]; try (split; split; reflexivity).
  destruct (allExported fields) eqn:Hexp.
  - rewrite InsertFields_exported, UpdateFields_exported by exact Hexp.
    split; split; discriminate.
  - rewrite InsertFields_unexported, UpdateFields_unexported by exact Hexp.
    split; split; reflexivity.
Qed.

(** X2. On a fresh builder, [Insert] of a struct with at least one field,
    all exported, makes [Build] return
    [INSERT INTO <table> (<field names>) VALUES (?, ..., ?)] with one
    placeholder per field and the field values, in declaration order, as
    the arguments. *)
Theorem X2_insert_then_build :
  forall (typeName name : string) (fields : list (StructField * any)),
    fields <> [] ->
    allExported fields = true ->
    exists qb,
      query.Insert (Struct name fields) query.NewQueryBuilder = Some qb
      /\ fst (query.Build typeName qb)
         = ("INSERT INTO " +:+ strings.ToLower typeName +:+ " ("
              +:+ strings.Join (fieldNames fields) ", "
              +:+ ") VALUES ("
              +:+ strings.Join (repeat "?" (length fields)) ", "
              +:+ ")",
            fieldValues fields).
Proof.
  intros typeName name fields Hne Hexp.
  unfold query.Insert. cbn [Fields]. rewrite InsertFields_exported by exact Hexp.
  eexists. split; [reflexivity|].
  destruct fields as [|fv rest]; [congruence|].
  unfold query.Build, query.WriteString.
  cbn [query.insertFields query.insertValues query.NewQueryBuilder app
       fieldNames fieldValues map length Nat.ltb Nat.leb fst].
  rewrite length_map, !append_assoc. reflexivity.
Qed.

Lemma X2_witness :
  exists qb,
    query.Insert modelsUser query.NewQueryBuilder = Some qb
    /\ fst (query.Build "User" qb)
       = ("INSERT INTO user (ID, Name) VALUES (?, ?)", [Int 0; Str ""]).
Proof.
  refine (X2_insert_then_build "User" "User"
            [({| Name := "ID"; PkgPath := ""; Tag := [("db", "id")] |}, Int 0);
             ({| Name := "Name"; PkgPath := ""; Tag := [("db", "name")] |}, Str "")]
            _ eq_refl).
  discriminate.
Defined.


Lemma UpdateFields_Some (fields : list (StructField * any)) qb qb' :
  query.UpdateFields fields qb = Some qb' ->
  qb' = {| query.selectFields := query.selectFields qb;
           query.whereClauses := query.whereClauses qb;
           query.whereArgs := query.whereArgs qb ++ fieldValues fields;
           query.joins := query.joins qb; query.limit := query.limit qb;
           query.orderBy := query.orderBy qb;
           query.insertFields := query.insertFields qb;
           query.insertValues := query.insertValues qb;
           query.updateFields := query.updateFields qb ++ updateFragments fields |}.
Proof.
  destruct (allExported fields) eqn:Hexp.
  - rewrite UpdateFields_exported by exact Hexp. congruence.
  - rewrite UpdateFields_unexported by exact Hexp. discriminate.
Qed.

(** A call other than [Insert] leaves the insert columns and values. *)
Lemma call_keeps_insert (c : Call) qb qb' :
  isInsert c = false ->
  call c qb = Some qb' ->
  query.insertFields qb' = query.insertFields qb
  /\ query.insertValues qb' = query.insertValues qb.
Proof.
  destruct c; cbn [isInsert call]; intros Hc Hcall; try discriminate;
    try (injection Hcall as <-; split; reflexivity).
  unfold query.Update in Hcall. destruct (Fields data); [|discriminate].
  apply UpdateFields_Some in Hcall. subst qb'. split; reflexivity.
Qed.

Lemma chain_keeps_insert (calls : list Call) : forall qb qb',
  forallb (fun c => negb (isInsert c)) calls = true ->
  chain calls qb = Some qb' ->
  query.insertFields qb' = query.insertFields qb
  /\ query.insertValues qb' = query.insertValues qb.
Proof.
  induction calls as [|c rest IH]; intros qb qb' Hall Hchain.
  - cbn in Hchain. injection Hchain as <-. split; reflexivity.
  - cbn [forallb] in Hall. apply andb_true_iff in Hall as [Hc Hrest].
    apply negb_true_iff in Hc. cbn [chain] in Hchain.
    destruct (call c qb) as [q1|] eqn:Hq1; [|discriminate].
    destruct (call_keeps_insert c qb q1 Hc Hq1) as [Hf Hv].
    destruct (IH q1 qb' Hrest Hchain) as [Hf' Hv'].
    split; congruence.
Qed.

(** With insert columns, the result of [Build] is a function of the
    insert columns and values, and the builder is left as it is. *)
Lemma Build_insert_branch (typeName : string) (qb : query.QueryBuilder) :
  query.insertFields qb <> [] ->
  query.Build typeName qb
  = (("INSERT INTO " +:+ strings.ToLower typeName +:+ " ("
        +:+ strings.Join (query.insertFields qb) ", "
        +:+ ") VALUES ("
        +:+ strings.Join (repeat "?" (length (query.insertFields qb))) ", "
        +:+ ")",
      query.insertValues qb), qb).
Proof.
  destruct qb as [sf wc wa js lim ob inf inv uf]. cbn [query.insertFields].
  intros Hne. destruct inf as [|c inf]; [congruence|].
  build_norm. reflexivity.
Qed.

(** X3. Once the builder has insert columns, no later call other than
    [Insert] changes what [Build] returns: every [Select], [WhereEqual],
    [OrderBy], [Join], [Limit], [Update] and [Delete] made afterwards is
    ignored, and [Build] leaves the builder as it is. *)
Theorem X3_calls_after_insert_are_ignored :
  forall (typeName : string) (calls : list Call) (qb qb' : query.QueryBuilder),
    query.insertFields qb <> [] ->
    forallb (fun c => negb (isInsert c)) calls = true ->
    chain calls qb = Some qb' ->
    fst (query.Build typeName qb') = fst (query.Build typeName qb)
    /\ snd (query.Build typeName qb') = qb'.
Proof.
  intros typeName calls qb qb' Hne Hall Hchain.
  destruct (chain_keeps_insert calls qb qb' Hall Hchain) as [Hf Hv].
  assert (Hne' : query.insertFields qb' <> []) by congruence.
  rewrite (Build_insert_branch typeName qb' Hne').
  rewrite (Build_insert_branch typeName qb Hne).
  cbn [fst snd]. now rewrite Hf, Hv.
Qed.

Lemma X3_witness :
  fst (query.Build "User"
         (query.Limit 3
            (query.WhereEqual "ID" (Int 7)
               {| query.selectFields := []; query.whereClauses := [];
                  query.whereArgs := []; query.joins := []; query.limit := 0;
                  query.orderBy := []; query.insertFields := ["ID"];
                  query.insertValues := [Int 1]; query.updateFields := [] |})))
  = ("INSERT INTO user (ID) VALUES (?)", [Int 1]).
Proof.
  exact (proj1 (X3_calls_after_insert_are_ignored "User"
                  [CallWhereEqual "ID" (Int 7); CallLimit 3]
                  {| query.selectFields := []; query.whereClauses := [];
                     query.whereArgs := []; query.joins := []; query.limit := 0;
                     query.orderBy := []; query.insertFields := ["ID"];
                     query.insertValues := [Int 1]; query.updateFields := [] |}
                  _ ltac:(discriminate) eq_refl eq_refl)).
Defined.



















(** X5. [Build] changes the builder exactly when it is on the SELECT
    branch with a positive limit; in every other state the builder is left
    as it is, so a second [Build] returns what the first returned. *)
Theorem X5_build_changes_builder_iff_select_with_limit :
  forall (typeName : string) (qb : query.QueryBuilder),
    (snd (query.Build typeName qb) = qb
       <-> (onSelectBranch qb && (0 <? query.limit qb))%bool = false)
    /\ ((onSelectBranch qb && (0 <? query.limit qb))%bool = false ->
        query.Build typeName (snd (query.Build typeName qb))
        = query.Build typeName qb).
Proof.
  intros typeName qb.
  assert (Hiff : snd (query.Build typeName qb) = qb
                 <-> (onSelectBranch qb && (0 <? query.limit qb))%bool = false).
  { destruct qb as [sf wc wa js lim ob inf inv uf].
    unfold onSelectBranch, query.Build.
    cbn [query.selectFields query.whereClauses query.whereArgs query.joins
         query.limit query.orderBy query.insertFields query.insertValues
         query.updateFields].
    destruct inf as [|c inf]; [|split; reflexivity].
    destruct uf as [|u uf]; [|split; reflexivity].
    destruct wc as [|w wc]; [|split; reflexivity].
    cbn [length Nat.ltb Nat.leb Nat.eqb andb].
    destruct (0 <? lim); cbn [snd]; [|split; reflexivity].
    split; [|discriminate]. intros Heq. exfalso.
    apply (f_equal query.whereArgs) in Heq. cbn [query.whereArgs] in Heq.
    apply (f_equal (@length any)) in Heq. rewrite length_app in Heq.
    cbn in Heq. lia. }
  split; [exact Hiff|].
  intros Hoff. apply Hiff in Hoff. now rewrite Hoff.
Qed.

(** X6. Off the SELECT branch, that is as soon as the builder has an
    insert column, an update fragment or a where-clause, [Build] ignores
    the select fields, the joins, the ORDER BY fragments and the limit:
    replacing them changes neither the text nor the arguments. *)
Theorem X6_select_parts_ignored_off_select_branch :
  forall (typeName : string) (qb : query.QueryBuilder)
         (fields joinFragments order : list string) (n : Z),
    onSelectBranch qb = false ->
    fst (query.Build typeName (withSelectParts fields joinFragments order n qb))
    = fst (query.Build typeName qb).
Proof.
  intros typeName qb fields joinFragments order n Hoff.
  destruct qb as [sf wc wa js lim ob inf inv uf].
  unfold onSelectBranch, withSelectParts, query.Build in *.
  cbn [query.selectFields query.whereClauses query.whereArgs query.joins
       query.limit query.orderBy query.insertFields query.insertValues
       query.updateFields] in *.
  destruct inf as [|c inf]; [|reflexivity].
  destruct uf as [|u uf]; [|reflexivity].
  destruct wc as [|w wc]; [discriminate|reflexivity].
Qed.

Lemma X6_witness :
  fst (query.Build "User"
         (withSelectParts ["id"] ["JOIN orders ON 1 = 1"] ["id ASC"] 5
            (query.WhereEqual "id" (Int 7) query.NewQueryBuilder)))
  = fst (query.Build "User" (query.WhereEqual "id" (Int 7) query.NewQueryBuilder)).
Proof.
  exact (X6_select_parts_ignored_off_select_branch "User"
           (query.WhereEqual "id" (Int 7) query.NewQueryBuilder)
           ["id"] ["JOIN orders ON 1 = 1"] ["id ASC"] 5 eq_refl).
Defined.

Lemma whereAll_state (conditions : list (string * any)) : forall qb,
  whereAll conditions qb
  = {| query.selectFields := query.selectFields qb;
       query.whereClauses :=
         query.whereClauses qb ++ map (fun c => fst c +:+ " = ?") conditions;
       query.whereArgs := query.whereArgs qb ++ map snd conditions;
       query.joins := query.joins qb; query.limit := query.limit qb;
       query.orderBy := query.orderBy qb;
       query.insertFields := query.insertFields qb;
       query.insertValues := query.insertValues qb;
       query.updateFields := query.updateFields qb |}.
Proof.
  induction conditions as [|c rest IH]; intros qb.
  - destruct qb. cbn. now rewrite !app_nil_r.
  - unfold whereAll in *. cbn [fold_left]. rewrite IH.
    cbn [query.WhereEqual query.selectFields query.whereClauses query.whereArgs
         query.joins query.limit query.orderBy query.insertFields
         query.insertValues query.updateFields map].
    now rewrite <- !app_assoc.
Qed.

(** X7. Repeated [WhereEqual] calls combine with AND in call order: on a
    fresh builder, one call per condition of a non-empty list makes
    [Build] return [DELETE FROM <table> WHERE f1 = ? AND ... AND fn = ?]
    with the values in the same order. *)
Theorem X7_where_clauses_and_combine_in_call_order :
  forall (typeName : string) (conditions : list (string * any)),
    conditions <> [] ->
    fst (query.Build typeName (whereAll conditions query.NewQueryBuilder))
    = ("DELETE FROM " +:+ strings.ToLower typeName +:+ " WHERE "
         +:+ strings.Join (map (fun c => fst c +:+ " = ?") conditions) " AND ",
       map snd conditions).
Proof.
  intros typeName conditions Hne. rewrite whereAll_state.
  destruct conditions as [|c rest]; [congruence|].
  cbn [query.NewQueryBuilder query.whereClauses query.whereArgs app map
       query.selectFields query.joins query.limit query.orderBy
       query.insertFields query.insertValues query.updateFields].
  build_norm. reflexivity.
Qed.

Lemma X7_witness :
  fst (query.Build "User"
         (query.WhereEqual "age" (Int 25)
            (query.WhereEqual "name" (Str "a") query.NewQueryBuilder)))
  = ("DELETE FROM user WHERE name = ? AND age = ?", [Str "a"; Int 25]).
Proof.
  refine (X7_where_clauses_and_combine_in_call_order "User"
            [("name", Str "a"); ("age", Int 25)] _).
  discriminate.
Defined.



(** ** The earlier builder *)

Lemma earlier_where_fold (conditions : list (string * any)) : forall qb,
  fold_left (fun q c => query_builder.WhereEqual (fst c) (snd c) q) conditions qb
  = {| query_builder.selectFields := query_builder.selectFields qb;
       query_builder.whereClauses :=
         query_builder.whereClauses qb ++ map (fun c => fst c +:+ " = ?") conditions;
       query_builder.whereArgs := query_builder.whereArgs qb ++ map snd conditions;
       query_builder.joins := query_builder.joins qb;
       query_builder.limit := query_builder.limit qb;
       query_builder.orderBy := query_builder.orderBy qb |}.
Proof.
  induction conditions as [|c rest IH]; intros qb.
  - destruct qb. cbn. now rewrite !app_nil_r.
  - cbn [fold_left]. rewrite IH.
    cbn [query_builder.WhereEqual query_builder.selectFields
         query_builder.whereClauses query_builder.whereArgs query_builder.joins
         query_builder.limit query_builder.orderBy map].
    now rewrite <- !app_assoc.
Qed.

(** X9. On the earlier builder, [Select(fields...)] followed by one
    [WhereEqual] per condition and [Limit(n)] with [n > 0] renders
    [SELECT <fields or *> FROM <table> WHERE c1 = ? AND ... LIMIT ?] (the
    WHERE clause only when there is a condition), and the arguments are
    the condition values in call order followed by [n], matching the
    placeholders from left to right. *)
Theorem X9_earlier_builder_select_where_limit :
  forall (typeName : string) (fields : list string)
         (conditions : list (string * any)) (n : Z),
    0 < n ->
    fst (query_builder.Build typeName (selectWhereLimit fields conditions n))
    = ("SELECT "
         +:+ (if (0 <? length fields)%nat then strings.Join fields ", " else "*")
         +:+ " FROM " +:+ strings.ToLower typeName
         +:+ (if (0 <? length conditions)%nat
              then " WHERE "
                     +:+ strings.Join (map (fun c => fst c +:+ " = ?") conditions) " AND "
              else "")
         +:+ " LIMIT ?",
       map snd conditions ++ [Int n]).
Proof.
  intros typeName fields conditions n Hn.
  assert (Hpos : (0 <? n) = true) by lia.
  unfold selectWhereLimit. rewrite earlier_where_fold.
  unfold query_builder.Build, query_builder.WriteString.
  cbn [query_builder.Limit query_builder.Select query_builder.NewQueryBuilder
       query_builder.selectFields query_builder.whereClauses
       query_builder.whereArgs query_builder.joins query_builder.limit
       query_builder.orderBy app length Nat.ltb Nat.leb].
  rewrite Hpos, length_map. cbn [fst].
  destruct fields, conditions;
    cbn [length Nat.ltb Nat.leb map]; rewrite ?append_assoc, ?append_nil_r;
    reflexivity.
Qed.

Lemma X9_witness :
  fst (query_builder.Build "User"
         (selectWhereLimit ["id"; "name"] [("age", Int 25)] 10))
  = ("SELECT id, name FROM user WHERE age = ? LIMIT ?", [Int 25; Int 10]).
Proof.
  refine (X9_earlier_builder_select_where_limit "User" ["id"; "name"]
            [("age", Int 25)] 10 _).
  lia.
Defined.

(** ** The repository methods *)

Lemma scanRows_rowsOf {entity error : Type} (entities : list entity) :
  forall (rest : list (error + entity)) (results : list entity),
    repository.scanRows (rowsOf entities ++ rest) results
    = repository.scanRows rest (results ++ entities).
Proof.
  induction entities as [|e entities IH]; intros rest results.
  - cbn. now rewrite app_nil_r.
  - cbn [rowsOf map app repository.scanRows]. fold (@rowsOf entity error entities).
    rewrite IH. now rewrite <- app_assoc.
Qed.

(** X10. [GetAll] hands [SELECT * FROM <table>] with no argument to
    [Query]. It returns the error of [Query] if there is one; the scanned
    entities in cursor order when every [Scan] succeeds, the empty list for
    an empty cursor; and otherwise the error of the first failing [Scan],
    without the entities scanned before it. *)
Theorem X10_GetAll_rows_or_first_error :
  forall (entity error : Type) (typeName : string)
         (Query : string -> list any -> error + list (error + entity)),
    let sql := "SELECT * FROM " +:+ strings.ToLower typeName in
    (forall err, Query sql [] = inl err ->
                 repository.GetAll typeName Query = inl err)
    /\ (forall entities, Query sql [] = inr (rowsOf entities) ->
                         repository.GetAll typeName Query = inr entities)
    /\ (forall entities err rest,
          Query sql [] = inr (rowsOf entities ++ inl err :: rest) ->
          repository.GetAll typeName Query = inl err).
Proof.
  intros entity error typeName Query sql.
  assert (Hq : repository.GetAllQuery typeName = (sql, [])).
  { unfold repository.GetAllQuery. build_norm. reflexivity. }
  unfold repository.GetAll. rewrite Hq. repeat split.
  - intros err ->. reflexivity.
  - intros entities ->. rewrite <- (app_nil_r (rowsOf entities)).
    rewrite scanRows_rowsOf. reflexivity.
  - intros entities err rest ->. rewrite scanRows_rowsOf. reflexivity.
Qed.

Lemma X10_witness :
  repository.GetAll (entity := nat) (error := string) "User"
    (fun _ _ => inr [inr 1%nat; inl "bad row"; inr 3%nat])
  = inl "bad row".
Proof.
  exact (proj2 (proj2 (X10_GetAll_rows_or_first_error nat string "User"
                         (fun _ _ => inr [inr 1%nat; inl "bad row"; inr 3%nat])))
           [1%nat] "bad row" [inr 3%nat] eq_refl).
Defined.

(** X11. [Create] of a struct with at least one field, all exported, hands
    [INSERT INTO <table> (<field names>) VALUES (?, ..., ?)] with the field
    values to [Exec] and returns the error of [Exec] as it is. *)
Theorem X11_Create_sends_insert :
  forall (entity error : Type) (typeName name : string)
         (fields : list (StructField * any)) (db : @repository.DB entity error),
    fields <> [] ->
    allExported fields = true ->
    repository.Create typeName db (Struct name fields)
    = Some (repository.Exec db
              ("INSERT INTO " +:+ strings.ToLower typeName +:+ " ("
                 +:+ strings.Join (fieldNames fields) ", "
                 +:+ ") VALUES ("
                 +:+ strings.Join (repeat "?" (length fields)) ", "
                 +:+ ")")
              (fieldValues fields)).
Proof.
  intros entity error typeName name fields db Hne Hexp.
  unfold repository.Create, query.Insert. cbn [Fields].
  rewrite InsertFields_exported by exact Hexp.
  rewrite Build_insert_branch.
  - cbn [fst query.insertFields query.insertValues query.NewQueryBuilder app].
    unfold fieldNames at 2. now rewrite length_map.
  - cbn [query.insertFields query.NewQueryBuilder app].
    destruct fields; [congruence | discriminate].
Qed.

Lemma X11_witness :
  repository.Create (entity := nat) (error := string) "User"
    {| repository.QueryRowScan := fun _ _ => inl "";
       repository.Exec := fun sql _ => Some sql |}
    modelsUser
  = Some (Some "INSERT INTO user (ID, Name) VALUES (?, ?)").
Proof.
  refine (X11_Create_sends_insert nat string "User" "User"
            [({| Name := "ID"; PkgPath := ""; Tag := [("db", "id")] |}, Int 0);
             ({| Name := "Name"; PkgPath := ""; Tag := [("db", "name")] |}, Str "")]
            {| repository.QueryRowScan := fun _ _ => inl "";
               repository.Exec := fun sql _ => Some sql |}
            _ eq_refl).
  discriminate.
Defined.

(** X12. [Create] of a struct with no field does not send an INSERT:
    [Insert] adds no column, so [Build] falls to its SELECT branch and
    [SELECT * FROM <table>] with no argument is handed to [Exec]. *)
Theorem X12_Create_of_fieldless_struct_sends_select :
  forall (entity error : Type) (typeName name : string)
         (db : @repository.DB entity error),
    repository.Create typeName db (Struct name [])
    = Some (repository.Exec db ("SELECT * FROM " +:+ strings.ToLower typeName) []).
Proof.
  intros entity error typeName name db.
  unfold repository.Create, query.Insert. cbn [Fields query.InsertFields].
  build_norm. reflexivity.
Qed.

(** X13. [Update] of a struct whose fields are all exported and that
    declares a field [ID] hands
    [UPDATE <table> SET <one fragment per field> WHERE ID = ?] to [Exec],
    with every field value in declaration order followed by the value of
    [ID]; the [ID] column is itself among the columns set. It returns the
    error of [Exec] as it is. *)
Theorem X13_repository_Update_sends_update_by_id :
  forall (entity error : Type) (typeName name : string)
         (pre post : list (StructField * any)) (idField : StructField)
         (idValue : any) (db : @repository.DB entity error),
    let fields := pre ++ (idField, idValue) :: post in
    Name idField = "ID" ->
    existsb (hasFieldName "ID") pre = false ->
    allExported fields = true ->
    repository.Update typeName db (Struct name fields)
    = Some (repository.Exec db
              ("UPDATE " +:+ strings.ToLower typeName +:+ " SET "
                 +:+ strings.Join (updateFragments fields) ", "
                 +:+ " WHERE ID = ?")
              (fieldValues fields ++ [idValue]))
    /\ In "ID = ?" (updateFragments fields).
Proof.
  intros entity error typeName name pre post idField idValue db fields
         Hname Hpre Hexp.
  assert (Hfind : List.find (fun fv => String.eqb (Name (fst fv)) "ID") fields
                  = Some (idField, idValue)).
  { subst fields. clear Hexp. induction pre as [|fv pre IH].
    - cbn. now rewrite Hname.
    - cbn [existsb] in Hpre. apply orb_false_iff in Hpre as [Hfv Hrest].
      unfold hasFieldName in Hfv. cbn [app List.find]. rewrite Hfv. now apply IH. }
  assert (Hid : Interface (idField, idValue) = Some idValue).
  { unfold Interface.
    assert (Hall := Hexp). unfold allExported in Hall.
    rewrite forallb_forall in Hall.
    rewrite (Hall (idField, idValue)); [reflexivity|].
    subst fields. apply in_or_app. right. now left. }
  split.
  - unfold repository.Update, FieldByName, query.Update. cbn [Fields].
    rewrite Hfind, Hid, UpdateFields_exported by exact Hexp.
    assert (Hne : fields <> []).
    { subst fields. now destruct pre. }
    destruct fields as [|fv rest]; [congruence|].
    build_norm. cbn [query.WhereEqual query.NewQueryBuilder app updateFragments map].
    build_norm. cbn [strings.Join]. reflexivity.
  - subst fields. unfold updateFragments. rewrite map_app. apply in_or_app.
    right. left. cbn [fst]. now rewrite Hname.
Qed.

Lemma X13_witness :
  repository.Update (entity := nat) (error := string) "User"
    {| repository.QueryRowScan := fun _ _ => inl "";
       repository.Exec := fun sql _ => Some sql |}
    modelsUser
  = Some (Some "UPDATE user SET ID = ?, Name = ? WHERE ID = ?").
Proof.
  exact (proj1 (X13_repository_Update_sends_update_by_id nat string "User" "User"
                  []
                  [({| Name := "Name"; PkgPath := ""; Tag := [("db", "name")] |}, Str "")]
                  {| Name := "ID"; PkgPath := ""; Tag := [("db", "id")] |} (Int 0)
                  {| repository.QueryRowScan := fun _ _ => inl "";
                     repository.Exec := fun sql _ => Some sql |}
                  eq_refl eq_refl eq_refl)).
Defined.

(** X14. The earlier [Delete], over the earlier builder, does not send a
    DELETE: that builder renders SELECT statements only, so
    [SELECT * FROM <table> WHERE <id column> = ?] with the id is handed to
    [Exec]. *)
Theorem X14_earlier_Delete_sends_select :
  forall (entity error : Type) (typeName : string)
         (db : @repository.DB entity error)
         (fields : gmap string string) (id : any),
    repository.Delete_v0 typeName db fields id
    = repository.Exec db
        ("SELECT * FROM " +:+ strings.ToLower typeName +:+ " WHERE "
           +:+ default "" (fields !! "ID") +:+ " = ?")
        [id].
Proof.
  intros entity error typeName db fields id.
  unfold repository.Delete_v0, repository.DeleteQuery_v0,
    query_builder.Build, query_builder.WriteString.
  cbn [query_builder.selectFields query_builder.whereClauses query_builder.whereArgs
       query_builder.joins query_builder.limit query_builder.orderBy
       query_builder.WhereEqual query_builder.NewQueryBuilder app length
       Nat.ltb Nat.leb fst snd strings.Join].
  change (0 <? 0) with false. cbn [fst]. rewrite ?append_assoc. reflexivity.
Qed.

(** X15. [Delete] hands [DELETE FROM <table> WHERE ID = ?] with the id as
    the only argument to [Exec] and returns the error of [Exec] as it is. *)
Theorem X15_repository_Delete_sends_delete_by_id :
  forall (entity error : Type) (typeName : string)
         (db : @repository.DB entity error) (id : any),
    repository.Delete typeName db id
    = repository.Exec db
        ("DELETE FROM " +:+ strings.ToLower typeName +:+ " WHERE ID = ?") [id].
Proof.
  intros entity error typeName db id.
  unfold repository.Delete, repository.DeleteQuery. build_norm. reflexivity.
Qed.

(** ** Further properties of the registry *)

(** X16. [RegisterModels] panics exactly when one of the values passed is
    not a struct value (a pointer to a struct, a basic value, nil),
    whatever the cache holds. *)
Theorem X16_RegisterModels_panics_iff_non_struct :
  forall (models : list any) (cache : gmap string (gmap string string)),
    utils.RegisterModels models cache = None <-> forallb isStruct models = false.
Proof.
  induction models as [|m rest IH]; intros cache.
  - cbn. split; discriminate.
  - cbn [utils.RegisterModels forallb].
    destruct m as [| | | | |name fields];
      [unfold utils.registerModel; cbn [Fields isStruct andb]; split; reflexivity..|].
    rewrite registerModel_struct. cbn [isStruct andb]. apply IH.
Qed.

Lemma fillFieldMap_present (fields : list (StructField * any)) (k : string) :
  forall fieldMap : gmap string string,
    existsb (hasFieldName k) fields = true ->
    exists field value,
      In (field, value) fields /\ Name field = k
      /\ utils.fillFieldMap fields fieldMap !! k = Some (columnOf field).
Proof.
  induction fields as [|fv rest IH]; intros fieldMap Hex; [discriminate|].
  cbn [utils.fillFieldMap].
  destruct (existsb (hasFieldName k) rest) eqn:Hrest.
  - destruct (IH (<[Name (fst fv) := match Lookup (Tag (fst fv)) "db" with
                                      | Some tag => tag
                                      | None => Name (fst fv)
                                      end]> fieldMap) eq_refl)
      as (field & value & Hin & Hname & Hcol).
    exists field, value. split; [now right|]. now split.
  - cbn [existsb] in Hex. rewrite Hrest, orb_false_r in Hex.
    unfold hasFieldName in Hex. apply String.eqb_eq in Hex.
    destruct fv as [field value]. cbn [fst] in *.
    exists field, value. split; [now left|]. split; [exact Hex|].
    rewrite fillFieldMap_other by exact Hrest.
    subst k. apply lookup_insert_eq.
Qed.

(** X17. The map registered for a struct has exactly the struct's field
    names as keys, and the column stored under a key is the column ([db]
    tag, or else the name) of a declared field with that name. *)
Theorem X17_registered_map_keys_are_field_names :
  forall (name : string) (fields : list (StructField * any))
         (cache : gmap string (gmap string string)) (k : string),
    exists cache' fieldMap,
      utils.registerModel (Struct name fields) cache = Some cache'
      /\ utils.GetFields name cache' = Some fieldMap
      /\ (fieldMap !! k = None <-> existsb (hasFieldName k) fields = false)
      /\ (forall column : string,
            fieldMap !! k = Some column ->
            exists field value,
              In (field, value) fields /\ Name field = k
              /\ column = columnOf field).
Proof.
  intros name fields cache k.
  exists (<[name := utils.fillFieldMap fields ∅]> cache), (utils.fillFieldMap fields ∅).
  split; [apply registerModel_struct|]. split.
  { unfold utils.GetFields. now rewrite lookup_insert_eq. }
  destruct (existsb (hasFieldName k) fields) eqn:Hex.
  - destruct (fillFieldMap_present fields k ∅ Hex)
      as (field & value & Hin & Hname & Hcol).
    split.
    + rewrite Hcol. split; discriminate.
    + intros column Hc. exists field, value. rewrite Hcol in Hc. split; [exact Hin|].
      split; congruence.
  - rewrite fillFieldMap_other by exact Hex. rewrite lookup_empty.
    split; [split; reflexivity | discriminate].
Qed.

(** X18. Registering a model again changes nothing: the cache after the
    second registration of the same value is the cache after the first. *)
Theorem X18_registering_twice_is_registering_once :
  forall (model : any) (cache cache1 : gmap string (gmap string string)),
    utils.registerModel model cache = Some cache1 ->
    utils.registerModel model cache1 = Some cache1
    /\ utils.RegisterModels [model; model] cache = utils.RegisterModels [model] cache.
Proof.
  intros model cache cache1 Hreg.
  assert (Hagain : utils.registerModel model cache1 = Some cache1).
  { destruct model; try discriminate.
    rewrite registerModel_struct in *. injection Hreg as <-.
    now rewrite insert_insert_eq. }
  split; [exact Hagain|].
  cbn [utils.RegisterModels]. now rewrite Hreg, Hagain.
Qed.

Lemma X18_witness :
  utils.RegisterModels [modelsUser; modelsUser] ∅ = utils.RegisterModels [modelsUser] ∅.
Proof.
  exact (proj2 (X18_registering_twice_is_registering_once modelsUser ∅ _ eq_refl)).
Defined.

(** X19. The order in which two models with different bare type names are
    registered does not matter. *)
Theorem X19_registration_order_of_distinct_names :
  forall (a b : any) (cache : gmap string (gmap string string)),
    TypeName a <> TypeName b ->
    utils.RegisterModels [a; b] cache = utils.RegisterModels [b; a] cache.
Proof.
  intros a b cache Hne.
  destruct a as [| | | | |na fa]; destruct b as [| | | | |nb fb];
    try reflexivity.
  cbn [utils.RegisterModels]. rewrite !registerModel_struct. f_equal.
  apply insert_insert_ne. cbn [TypeName] in Hne. congruence.
Qed.

Lemma X19_witness :
  utils.RegisterModels [modelsUser; Struct "Order" []] ∅
  = utils.RegisterModels [Struct "Order" []; modelsUser] ∅.
Proof.
  refine (X19_registration_order_of_distinct_names modelsUser (Struct "Order" []) ∅ _).
  discriminate.
Defined.

(** X20. Registration touches only the entries of the registered type
    names: for a type name that none of the newly registered models has,
    [GetFields] and [GetField] give after the registration what they gave
    before it. *)
Theorem X20_registration_leaves_other_types :
  forall (models : list any) (cache cache' : gmap string (gmap string string))
         (name : string),
    utils.RegisterModels models cache = Some cache' ->
    registered models name = false ->
    utils.GetFields name cache' = utils.GetFields name cache
    /\ (forall (model : any) (fieldName : string),
          TypeName model = Some name ->
          utils.GetField model fieldName cache' = utils.GetField model fieldName cache).
Proof.
  intros models cache cache' name Hreg Hno.
  pose proof (RegisterModels_lookup models name _ _ Hreg) as Hl.
  rewrite Hno in Hl. split.
  - unfold utils.GetFields. now rewrite Hl.
  - intros model fieldName Hname. unfold utils.GetField. now rewrite Hname, Hl.
Qed.

Lemma X20_witness :
  exists cache',
    utils.RegisterModels [Struct "Order" []] (<["User" := ∅]> ∅) = Some cache'
    /\ utils.GetFields "User" cache' = utils.GetFields "User" (<["User" := ∅]> ∅).
Proof.
  eexists. split; [reflexivity|].
  exact (proj1 (X20_registration_leaves_other_types [Struct "Order" []]
                  (<["User" := ∅]> ∅) _ "User" eq_refl eq_refl)).
Defined.

(** X21. One call of [RegisterModels] with all the models has the effect
    of a call with the first ones followed by a call with the others, and
    panics when either of these does. *)
Theorem X21_RegisterModels_in_two_calls :
  forall (first second : list any) (cache : gmap string (gmap string string)),
    utils.RegisterModels (first ++ second) cache
    = match utils.RegisterModels first cache with
      | Some cache' => utils.RegisterModels second cache'
      | None => None
      end.
Proof. intros first second cache. apply RegisterModels_app. Qed.

(** ** SELECT statements of the current builder *)

Lemma join_fold (joinList : list (string * string)) : forall qb,
  fold_left (fun (q : query.QueryBuilder) (j : string * string) =>
       query.Join (fst j) (snd j) q) joinList qb
  = {| query.selectFields := query.selectFields qb;
       query.whereClauses := query.whereClauses qb;
       query.whereArgs := query.whereArgs qb;
       query.joins :=
         query.joins qb
         ++ map (fun j : string * string => "JOIN " +:+ fst j +:+ " ON " +:+ snd j) joinList;
       query.limit := query.limit qb; query.orderBy := query.orderBy qb;
       query.insertFields := query.insertFields qb;
       query.insertValues := query.insertValues qb;
       query.updateFields := query.updateFields qb |}.
Proof.
  induction joinList as [|j rest IH]; intros qb.
  - destruct qb. cbn. now rewrite !app_nil_r.
  - cbn [fold_left]. rewrite IH.
    cbn [query.Join query.selectFields query.whereClauses query.whereArgs
         query.joins query.limit query.orderBy query.insertFields
         query.insertValues query.updateFields map].
    now rewrite <- !app_assoc.
Qed.

Lemma order_fold (orders : list (string * bool)) : forall qb,
  fold_left
    (fun (q : query.QueryBuilder) (o : string * bool) =>
       if snd o then query.OrderByDESC (fst o) q
                else query.OrderByASC (fst o) q) orders qb
  = {| query.selectFields := query.selectFields qb;
       query.whereClauses := query.whereClauses qb;
       query.whereArgs := query.whereArgs qb;
       query.joins := query.joins qb; query.limit := query.limit qb;
       query.orderBy :=
         query.orderBy qb
         ++ map (fun o : string * bool => fst o +:+ (if snd o then " DESC" else " ASC")) orders;
       query.insertFields := query.insertFields qb;
       query.insertValues := query.insertValues qb;
       query.updateFields := query.updateFields qb |}.
Proof.
  induction orders as [|o rest IH]; intros qb.
  - destruct qb. cbn. now rewrite !app_nil_r.
  - cbn [fold_left]. rewrite IH. destruct o as [field [|]]; cbn [fst snd];
      cbn [query.OrderByASC query.OrderByDESC query.selectFields
           query.whereClauses query.whereArgs query.joins query.limit
           query.orderBy query.insertFields query.insertValues
           query.updateFields map fst snd];
      now rewrite <- !app_assoc.
Qed.

(** X22. On the current builder without a where-clause, [Select], [Join]
    and [OrderByASC]/[OrderByDESC] calls render
    [SELECT <fields or *> FROM <table>], the [JOIN <table> ON <condition>]
    fragments separated by spaces in call order, and the ORDER BY fragments
    separated by commas in call order, with no argument. *)
Theorem X22_select_join_order_render_in_call_order :
  forall (typeName : string) (fields : list string)
         (joinList : list (string * string)) (orders : list (string * bool)),
    fst (query.Build typeName (selectJoinOrder fields joinList orders))
    = ("SELECT "
         +:+ (if (0 <? length fields)%nat then strings.Join fields ", " else "*")
         +:+ " FROM " +:+ strings.ToLower typeName
         +:+ (if (0 <? length joinList)%nat
              then " " +:+ strings.Join
                             (map (fun j : string * string => "JOIN " +:+ fst j +:+ " ON " +:+ snd j)
                                  joinList) " "
              else "")
         +:+ (if (0 <? length orders)%nat
              then " ORDER BY "
                     +:+ strings.Join
                           (map (fun o : string * bool => fst o +:+ (if snd o then " DESC" else " ASC"))
                                orders) ", "
              else ""),
       []).
Proof.
  intros typeName fields joinList orders.
  unfold selectJoinOrder. rewrite order_fold, join_fold.
  unfold query.Build, query.WriteString.
  cbn [query.Select query.NewQueryBuilder query.selectFields query.whereClauses
       query.whereArgs query.joins query.limit query.orderBy query.insertFields
       query.insertValues query.updateFields app length Nat.ltb Nat.leb Nat.eqb
       andb].
  change (0 <? 0) with false. rewrite !length_map. cbn [fst].
  destruct fields, joinList, orders;
    cbn [length Nat.ltb Nat.leb map]; rewrite ?append_assoc, ?append_nil_r;
    reflexivity.
Qed.

(** X23. Only the [db] key of a tag names a column: for a struct none of
    whose fields has a [db] tag, whatever other keys such as [json] the
    tags carry, the registered map sends every field name to itself, and
    [GetField] returns the field name it is asked for. *)
Theorem X23_without_db_tag_column_is_field_name :
  forall (name : string) (fields : list (StructField * any))
         (cache : gmap string (gmap string string)) (k : string),
    noDbTag fields = true ->
    existsb (hasFieldName k) fields = true ->
    exists cache',
      utils.registerModel (Struct name fields) cache = Some cache'
      /\ utils.GetField (Struct name fields) k cache' = Some k.
Proof.
  intros name fields cache k Hno Hex.
  exists (<[name := utils.fillFieldMap fields ∅]> cache).
  split; [apply registerModel_struct|].
  destruct (fillFieldMap_present fields k ∅ Hex)
    as (field & value & Hin & Hname & Hcol).
  unfold utils.GetField. cbn [TypeName]. rewrite lookup_insert_eq, Hcol.
  unfold noDbTag in Hno. rewrite forallb_forall in Hno.
  specialize (Hno _ Hin). cbn [fst] in Hno. unfold columnOf.
  destruct (Lookup (Tag field) "db"); [discriminate|]. now rewrite Hname.
Qed.

Lemma X23_witness :
  exists cache',
    utils.registerModel
      (Struct "Entity[int,int]"
         (entityFields (Int 1) Nil Nil Nil (Int 0) (Int 0) (Int 0))) ∅
    = Some cache'
    /\ utils.GetField
         (Struct "Entity[int,int]"
            (entityFields (Int 1) Nil Nil Nil (Int 0) (Int 0) (Int 0)))
         "CreatedAt" cache'
       = Some "CreatedAt".
Proof.
  exact (X23_without_db_tag_column_is_field_name "Entity[int,int]"
           (entityFields (Int 1) Nil Nil Nil (Int 0) (Int 0) (Int 0))
           ∅ "CreatedAt" eq_refl eq_refl).
Defined.

(** X24. The earlier [GetByID] hands
    [SELECT <id column> FROM <table> WHERE <id column> = ? LIMIT ?] with
    the id followed by 1 to [QueryRow] and returns the outcome of [Scan]
    as it is; only the id column is selected. *)
Theorem X24_earlier_GetByID_selects_id_column :
  forall (entity error : Type) (typeName : string)
         (db : @repository.DB entity error)
         (fields : gmap string string) (id : any),
    repository.GetByID_v0 typeName db fields id
    = repository.QueryRowScan db
        ("SELECT " +:+ default "" (fields !! "ID")
           +:+ " FROM " +:+ strings.ToLower typeName
           +:+ " WHERE " +:+ default "" (fields !! "ID") +:+ " = ?" +:+ " LIMIT ?")
        [id; Int 1].
Proof.
  intros entity error typeName db fields id.
  unfold repository.GetByID_v0, repository.GetByIDQuery_v0,
    query_builder.Build, query_builder.WriteString.
  cbn [query_builder.selectFields query_builder.whereClauses query_builder.whereArgs
       query_builder.joins query_builder.limit query_builder.orderBy
       query_builder.Limit query_builder.WhereEqual query_builder.Select
       query_builder.NewQueryBuilder app length Nat.ltb Nat.leb Z.ltb Z.compare
       fst snd strings.Join].
  rewrite ?append_assoc.
  now destruct (repository.QueryRowScan db _ _).
Qed.
